(** * pdf-generator-mcp: the markdown parser and the two renderers of [src/pdf.py]

    A shallow embedding of [_parse_markdown_to_flowables], [get_styles],
    [render_pdf] and [render_docx], and the properties of them that the
    specification states.

    Conventions.
    - A Python [str] is a [string] of the Standard Library; a character is
      a code point below 256.  On that range [str.isspace] and the regular
      expression class [\s] hold of 9..13, 28..32, 133 and 160, and [\d]
      holds of the ten ASCII digits.
    - The objects of reportlab and python-docx are data: a constructor call
      of the source gives a constructor of an inductive type here.  The
      calls [Paragraph(text, style)] and [Table(data)] can raise; what they
      reject is reportlab's business and is read from a [Reportlab] record,
      except on the texts and tables where the answer is known.
    - Code that can raise returns an [outcome]; code that talks to the
      outside (random tokens, the clock, the file system, the upload host)
      runs in the state-and-exception monad [M] over an abstract world. *)

From Stdlib Require Import Ascii String ZArith QArith Lia.
From stdpp Require Import gmap strings list.

Local Open Scope string_scope.

(** ** Python string primitives *)

Module Str.

Definition newline : ascii := ascii_of_nat 10.

(** [str.isspace] of one character. *)
Definition isspace (c : ascii) : bool :=
  let n := nat_of_ascii c in
  (((9 <=? n) && (n <=? 13)) || ((28 <=? n) && (n <=? 32))
   || (n =? 133) || (n =? 160))%nat.

(** [c.isdecimal()], which is what [\d] tests. *)
Definition isdigit (c : ascii) : bool :=
  let n := nat_of_ascii c in ((48 <=? n) && (n <=? 57))%nat.

Definition is_empty (s : string) : bool :=
  match s with EmptyString => true | String _ _ => false end.

Fixpoint lstrip (s : string) : string :=
  match s with
  | EmptyString => EmptyString
  | String c s' => if isspace c then lstrip s' else s
  end.

Fixpoint rstrip (s : string) : string :=
  match s with
  | EmptyString => EmptyString
  | String c s' =>
      let r := rstrip s' in
      if isspace c && is_empty r then EmptyString else String c r
  end.

(** [s.strip()] *)
Definition strip (s : string) : string := rstrip (lstrip s).

(** [s.startswith(p)] *)
Fixpoint startswith (s p : string) : bool :=
  match p, s with
  | EmptyString, _ => true
  | String _ _, EmptyString => false
  | String a p', String b s' => Ascii.eqb a b && startswith s' p'
  end.

(** [p in s] for a non-empty [p] *)
Fixpoint contains (s p : string) : bool :=
  startswith s p ||
  match s with
  | EmptyString => false
  | String _ s' => contains s' p
  end.

(** [s[n:]] *)
Fixpoint drop (n : nat) (s : string) : string :=
  match n, s with
  | O, _ => s
  | S _, EmptyString => EmptyString
  | S n', String _ s' => drop n' s'
  end.

(** [s[:n]] *)
Fixpoint take (n : nat) (s : string) : string :=
  match n, s with
  | O, _ => EmptyString
  | S _, EmptyString => EmptyString
  | S n', String c s' => String c (take n' s')
  end.

(** [s.split(sep)] for a separator of one character. *)
Fixpoint split (sep : ascii) (s : string) : list string :=
  match s with
  | EmptyString => [EmptyString]
  | String c s' =>
      if Ascii.eqb c sep then EmptyString :: split sep s'
      else match split sep s' with
           | h :: t => String c h :: t
           | [] => [String c EmptyString]
           end
  end.

(** [l[1:-1]] *)
Definition inner {A} (l : list A) : list A := removelast (tail l).

(** The number of places of [s] where [p] starts, [p] non-empty. *)
Fixpoint occurrences (s p : string) : nat :=
  ((if startswith s p then 1 else 0) +
   match s with
   | EmptyString => 0
   | String _ s' => occurrences s' p
   end)%nat.

(** [s.replace(old, new)] for a non-empty [old]: [skip] counts the
    characters of a replaced occurrence that are still to be passed. *)
Fixpoint replace_from (skip : nat) (old new s : string) : string :=
  match s with
  | EmptyString => EmptyString
  | String c s' =>
      match skip with
      | S k => replace_from k old new s'
      | O =>
          if startswith s old
          then new ++ replace_from (String.length old - 1)%nat old new s'
          else String c (replace_from 0%nat old new s')
      end
  end.

Definition replace (s old new : string) : string :=
  replace_from 0%nat old new s.

End Str.

(** ** The three regular expressions of [pdf.py] *)

Module Re.

(** [^\d+\. ]: the text after the numeric marker when [s] starts with one
    or more digits, a dot and a space.  A dot is no digit, so the greedy
    [\d+] never gives a digit back. *)
Fixpoint after_digits (s : string) : option string :=
  match s with
  | EmptyString => None
  | String c s' =>
      if Str.isdigit c then after_digits s'
      else if Str.startswith s ". " then Some (Str.drop 2 s) else None
  end.

Definition numbered_rest (s : string) : option string :=
  match s with
  | EmptyString => None
  | String c s' => if Str.isdigit c then after_digits s' else None
  end.

(** [re.match(r"^\d+\. ", s)] as a truth value. *)
Definition match_numbered (s : string) : bool :=
  match numbered_rest s with Some _ => true | None => false end.

(** [re.sub(r"^\d+\. ", "", s)]: [^] holds at the start only, so at most
    one marker is removed. *)
Definition sub_numbered (s : string) : string :=
  match numbered_rest s with Some r => r | None => s end.

(** The class [[-:\s|]]. *)
Definition sep_class (c : ascii) : bool :=
  Ascii.eqb c "-" || Ascii.eqb c ":" || Str.isspace c || Ascii.eqb c "|".

(** What may follow a non-empty run of the class: more of the class, and
    at last a bar at [$], which is the end of the string or the place
    before a final newline. *)
Fixpoint sep_rest (r : string) : bool :=
  match r with
  | EmptyString => false
  | String c r' =>
      (Ascii.eqb c "|" &&
         (Str.is_empty r' || String.eqb r' (String Str.newline EmptyString)))
      || (sep_class c && sep_rest r')
  end.

(** [re.match(r"^\|[-:\s|]+\|$", s)] as a truth value. *)
Definition match_separator (s : string) : bool :=
  match s with
  | String c0 (String c r) => Ascii.eqb c0 "|" && sep_class c && sep_rest r
  | _ => false
  end.

(** The lazy group of [\*\*(.+?)\*\*] read from the text after the opening
    stars: the shortest non-empty run without a newline that two stars
    follow. *)
Fixpoint lazy_group (s : string) : option string :=
  match s with
  | EmptyString => None
  | String c s' =>
      if Ascii.eqb c Str.newline then None
      else if Str.startswith s' "**" then Some (String c EmptyString)
      else match lazy_group s' with
           | Some g => Some (String c g)
           | None => None
           end
  end.

(** The group of a match of [\*\*(.+?)\*\*] at the start of [s]. *)
Definition match_bold (s : string) : option string :=
  if Str.startswith s "**" then lazy_group (Str.drop 2 s) else None.

(** [re.subn(r"\*\*(.+?)\*\*", r"<b>\1</b>", s)], scanning from the left:
    the result text and the number of replacements.  A match of group [g]
    spans [4 + length g] characters; [skip] counts those still to pass. *)
Fixpoint subn_bold_from (skip : nat) (s : string) : string * nat :=
  match s with
  | EmptyString => (EmptyString, 0%nat)
  | String c s' =>
      match skip with
      | S k => subn_bold_from k s'
      | O =>
          match match_bold s with
          | Some g =>
              let '(t, n) := subn_bold_from (3 + String.length g)%nat s' in
              ("<b>" ++ g ++ "</b>" ++ t, S n)
          | None =>
              let '(t, n) := subn_bold_from 0%nat s' in (String c t, n)
          end
      end
  end.

Definition subn_bold (s : string) : string * nat := subn_bold_from 0%nat s.

(** [re.sub(r"\*\*(.+?)\*\*", r"<b>\1</b>", s)] *)
Definition sub_bold (s : string) : string := fst (subn_bold s).

End Re.

(** ** Exceptions and results *)

Inductive ExnClass :=
  ImportError | KeyError | TypeError | AttributeError | ValueError
| OtherException.

(** An instance of [Exception]: its class and what [str(e)] gives. *)
Record Exn := mkExn { exn_class : ExnClass; exn_str : string }.

(** What running a piece of code gives: a value, a raised exception, or
    no answer within the steps allowed to a loop. *)
Inductive outcome (A : Type) :=
| Ok (a : A)
| Raise (e : Exn)
| OutOfFuel.
Arguments Ok {A} a.
Arguments Raise {A} e.
Arguments OutOfFuel {A}.

Definition bind {A B} (c : outcome A) (k : A -> outcome B) : outcome B :=
  match c with
  | Ok a => k a
  | Raise e => Raise e
  | OutOfFuel => OutOfFuel
  end.

Notation "'let*' x ':=' c 'in' k" := (bind c (fun x => k))
  (at level 10, x name, c at level 100, k at level 200).

(** ** reportlab objects *)

Inductive Color :=
| HexColor (hex : string)
| black
| white.

(** [ParagraphStyle(name, parent=..., **kw)]: the keywords a call leaves
    out are [None]. *)
Record ParagraphStyle := mkStyle {
  style_name : string;
  parent : string;
  fontSize : Z;
  textColor : Color;
  spaceBefore : option Z;
  spaceAfter : option Z;
  leading : option Z;
  leftIndent : option Z;
  borderPadding : option (Z * Z * Z * Z);
  borderWidth : option Z;
  borderColor : option Color;
}.

Inductive CmdArg :=
| ArgColor (c : Color)
| ArgName (s : string)
| ArgNum (q : Q).

(** One command of a [TableStyle]: its name, the two cell corners and its
    arguments. *)
Record TableCmd := mkCmd {
  cmd_name : string;
  cmd_from : Z * Z;
  cmd_to : Z * Z;
  cmd_args : list CmdArg;
}.

#[warnings="-register-all"]
Inductive Flowable :=
| Paragraph (text : string) (style : ParagraphStyle)
| Spacer (width height : Z)
| Table (data : list (list string)) (repeatRows : Z) (style : list TableCmd)
| ListItem (body : Flowable)
| ListFlowable (items : list Flowable) (bulletType : string) (indent : Z).

(** ** What reportlab's constructors reject

    [Paragraph(text, style)] hands [text] to reportlab's mark-up parser and
    raises when the parser reports an error; [Table(data)] raises
    [ValueError] when no row of [data] has a cell.  The mark-up parser is
    the library's.  What is fixed here is what it accepts in every version:
    text that holds neither [<] nor [&], and such text with [<b>] and
    [</b>] around parts of it, which is the mark-up this module writes.  On
    every other text the library decides, and so it does on the message of
    its errors. *)
Record Reportlab := mkReportlab {
  paragraph_error : string -> ParagraphStyle -> option Exn;
  empty_table_message : list (list string) -> string;
}.

(** A character that starts no mark-up. *)
Definition text_char (c : ascii) : bool :=
  negb (Ascii.eqb c "<") && negb (Ascii.eqb c "&").

(** Text whose only mark-up is [<b>] ... [</b>] around text without
    mark-up.  [inside] tells that a [<b>] waits for its [</b>]; [skip]
    counts the characters of a tag that are still to pass. *)
Fixpoint bold_markup_from (skip : nat) (inside : bool) (s : string) : bool :=
  match s with
  | EmptyString => negb inside
  | String c s' =>
      match skip with
      | S k => bold_markup_from k inside s'
      | O =>
          if text_char c then bold_markup_from 0%nat inside s'
          else if inside then
            Str.startswith s "</b>" && bold_markup_from 3%nat false s'
          else Str.startswith s "<b>" && bold_markup_from 2%nat true s'
      end
  end.

Definition bold_markup (s : string) : bool := bold_markup_from 0%nat false s.

(** [Paragraph(text, style)] *)
Definition new_Paragraph (rl : Reportlab) (text : string)
    (style : ParagraphStyle) : outcome Flowable :=
  if bold_markup text then Ok (Paragraph text style)
  else match paragraph_error rl text style with
       | Some e => Raise e
       | None => Ok (Paragraph text style)
       end.

(** A row without cells. *)
Definition no_cells (row : list string) : bool :=
  match row with [] => true | _ :: _ => false end.

(** [Table(data, repeatRows=...)] followed by [setStyle]: the constructor
    wants a row and a column; rows shorter than the longest are filled up. *)
Definition new_Table (rl : Reportlab) (data : list (list string))
    (repeatRows : Z) (style : list TableCmd) : outcome Flowable :=
  if forallb no_cells data
  then Raise (mkExn ValueError (empty_table_message rl data))
  else Ok (Table data repeatRows style).

(** ** [get_styles] *)

(** The four colours a style name selects. *)
Definition theme_colors (style_name : string) : Color * Color * Color * Color :=
  if String.eqb style_name "modern" then
    (HexColor "#111827", HexColor "#374151", HexColor "#1f2937",
     HexColor "#3b82f6")
  else if String.eqb style_name "minimal" then
    (black, black, HexColor "#222222", HexColor "#666666")
  else
    (HexColor "#1a1a1a", HexColor "#1a1a1a", HexColor "#333333",
     HexColor "#3b82f6").

Definition get_styles (style_name : string)
  : gmap string ParagraphStyle * Color :=
  let '(title_color, heading_color, text_color, accent_color) :=
    theme_colors style_name in
  let custom_styles : gmap string ParagraphStyle :=
    <["Title" :=
        mkStyle "CustomTitle" "Title" 24 title_color None (Some 20%Z) None
          None (Some (0, 0, 8, 0)%Z) (Some 0%Z) (Some accent_color)]>
    (<["Heading1" :=
        mkStyle "CustomH1" "Heading1" 18 heading_color (Some 20%Z)
          (Some 12%Z) None None None None None]>
    (<["Heading2" :=
        mkStyle "CustomH2" "Heading2" 14 heading_color (Some 16%Z)
          (Some 8%Z) None None None None None]>
    (<["Heading3" :=
        mkStyle "CustomH3" "Heading3" 12 heading_color (Some 12%Z)
          (Some 6%Z) None None None None None]>
    (<["BodyText" :=
        mkStyle "CustomBody" "BodyText" 11 text_color (Some 6%Z)
          (Some 6%Z) (Some 16%Z) None None None None]>
    (<["BulletText" :=
        mkStyle "CustomBullet" "BodyText" 11 text_color (Some 4%Z)
          (Some 4%Z) None (Some 20%Z) None None None]> ∅))))) in
  (custom_styles, accent_color).

(** [styles[key]] *)
Definition getitem (styles : gmap string ParagraphStyle) (key : string)
  : outcome ParagraphStyle :=
  match styles !! key with
  | Some st => Ok st
  | None => Raise (mkExn KeyError ("'" ++ key ++ "'"))
  end.

(** ** [_parse_markdown_to_flowables] *)

(** The style every table gets (lines 244-259). *)
Definition table_style : list TableCmd :=
  [ mkCmd "BACKGROUND" (0, 0) (-1, 0) [ArgColor (HexColor "#f8f9fa")];
    mkCmd "TEXTCOLOR" (0, 0) (-1, 0) [ArgColor (HexColor "#374151")];
    mkCmd "FONTNAME" (0, 0) (-1, 0) [ArgName "Helvetica-Bold"];
    mkCmd "FONTSIZE" (0, 0) (-1, -1) [ArgNum 10];
    mkCmd "BOTTOMPADDING" (0, 0) (-1, 0) [ArgNum 10];
    mkCmd "TOPPADDING" (0, 0) (-1, 0) [ArgNum 10];
    mkCmd "BACKGROUND" (0, 1) (-1, -1) [ArgColor white];
    mkCmd "GRID" (0, 0) (-1, -1) [ArgNum (1 # 2); ArgColor (HexColor "#e5e7eb")];
    mkCmd "ALIGN" (0, 0) (-1, -1) [ArgName "LEFT"];
    mkCmd "VALIGN" (0, 0) (-1, -1) [ArgName "MIDDLE"];
    mkCmd "LEFTPADDING" (0, 0) (-1, -1) [ArgNum 10];
    mkCmd "RIGHTPADDING" (0, 0) (-1, -1) [ArgNum 10];
    mkCmd "TOPPADDING" (0, 1) (-1, -1) [ArgNum 8];
    mkCmd "BOTTOMPADDING" (0, 1) (-1, -1) [ArgNum 8] ]%Z.

(** The test of lines 206 and 208. *)
Definition is_bullet (line : string) : bool :=
  Str.startswith line "- " || Str.startswith line "* ".

(** The inner loop of lines 208-213, run on [lines[i:]]: the items, and
    the number of lines the cursor passed. *)
Fixpoint bullet_loop (rl : Reportlab) (styles : gmap string ParagraphStyle)
    (rest : list string) : outcome (list Flowable * nat) :=
  match rest with
  | [] => Ok ([], 0%nat)
  | raw :: rest' =>
      if is_bullet (Str.strip raw) then
        let item_text := Str.drop 2 (Str.strip raw) in
        let item_text := Re.sub_bold item_text in
        let* st := getitem styles "BulletText" in
        let* p := new_Paragraph rl item_text st in
        let* r := bullet_loop rl styles rest' in
        Ok (ListItem p :: r.1, S r.2)
      else Ok ([], 0%nat)
  end.

(** The inner loop of lines 220-224. *)
Fixpoint numbered_loop (rl : Reportlab)
    (styles : gmap string ParagraphStyle)
    (rest : list string) : outcome (list Flowable * nat) :=
  match rest with
  | [] => Ok ([], 0%nat)
  | raw :: rest' =>
      if Re.match_numbered (Str.strip raw) then
        let item_text := Re.sub_numbered (Str.strip raw) in
        let item_text := Re.sub_bold item_text in
        let* st := getitem styles "BulletText" in
        let* p := new_Paragraph rl item_text st in
        let* r := numbered_loop rl styles rest' in
        Ok (ListItem p :: r.1, S r.2)
      else Ok ([], 0%nat)
  end.

(** The inner loop of lines 231-240: a separator line moves the cursor
    and adds no row. *)
Fixpoint table_loop (rest : list string) : list (list string) * nat :=
  match rest with
  | [] => ([], 0%nat)
  | raw :: rest' =>
      let row_line := Str.strip raw in
      if Str.startswith row_line "|" then
        let '(table_data, n) := table_loop rest' in
        if Re.match_separator row_line then (table_data, S n)
        else
          let cells := map Str.strip (Str.inner (Str.split "|" row_line)) in
          (cells :: table_data, S n)
      else ([], 0%nat)
  end.

(** The loop of lines 184-270 with its cursor [i]; [fuel] bounds the
    number of turns. *)
Fixpoint parse_loop (fuel : nat) (rl : Reportlab)
    (styles : gmap string ParagraphStyle)
    (lines : list string) (i : nat) (flowables : list Flowable)
  : outcome (list Flowable) :=
  match lines !! i with
  | None => Ok flowables
  | Some raw =>
      match fuel with
      | O => OutOfFuel
      | S fuel =>
          let line := Str.strip raw in
          if Str.is_empty line then
            parse_loop fuel rl styles lines (i + 1) (flowables ++ [Spacer 1 6])
          else if Str.startswith line "### " then
            let* st := getitem styles "Heading3" in
            let* p := new_Paragraph rl (Str.drop 4 line) st in
            parse_loop fuel rl styles lines (i + 1) (flowables ++ [p])
          else if Str.startswith line "## " then
            let* st := getitem styles "Heading2" in
            let* p := new_Paragraph rl (Str.drop 3 line) st in
            parse_loop fuel rl styles lines (i + 1) (flowables ++ [p])
          else if Str.startswith line "# " then
            let* st := getitem styles "Heading1" in
            let* p := new_Paragraph rl (Str.drop 2 line) st in
            parse_loop fuel rl styles lines (i + 1) (flowables ++ [p])
          else if Str.contains line "**" then
            let formatted := Re.sub_bold line in
            let* st := getitem styles "BodyText" in
            let* p := new_Paragraph rl formatted st in
            parse_loop fuel rl styles lines (i + 1) (flowables ++ [p])
          else if is_bullet line then
            let* r := bullet_loop rl styles (drop i lines) in
            let '(bullet_items, n) := r in
            parse_loop fuel rl styles lines (i + n)
              (flowables ++ [ListFlowable bullet_items "bullet" 20])
          else if Re.match_numbered line then
            let* r := numbered_loop rl styles (drop i lines) in
            let '(num_items, n) := r in
            parse_loop fuel rl styles lines (i + n)
              (flowables ++ [ListFlowable num_items "1" 20])
          else if Str.startswith line "|" then
            let '(table_data, n) := table_loop (drop i lines) in
            match table_data with
            | [] => parse_loop fuel rl styles lines (i + n) flowables
            | _ :: _ =>
                let* table := new_Table rl table_data 1 table_style in
                parse_loop fuel rl styles lines (i + n)
                  (flowables ++ [Spacer 1 10; table; Spacer 1 10])
            end
          else
            let formatted := Re.sub_bold line in
            let* st := getitem styles "BodyText" in
            let* p := new_Paragraph rl formatted st in
            parse_loop fuel rl styles lines (i + 1) (flowables ++ [p])
      end
  end.

(** [lines = markdown_content.strip().split("\n")] *)
Definition lines_of (markdown_content : string) : list string :=
  Str.split Str.newline (Str.strip markdown_content).

Definition _parse_markdown_to_flowables (rl : Reportlab)
    (markdown_content : string)
    (styles : gmap string ParagraphStyle) (accent_color : Color)
  : outcome (list Flowable) :=
  let lines := lines_of markdown_content in
  parse_loop (length lines) rl styles lines 0 [].

(** A line feed between the lines of a test input. *)
Definition unlines (ls : list string) : string :=
  String.concat (String Str.newline EmptyString) ls.

(** ** python-docx objects and the body loop of [render_docx] *)

Inductive DocxBlock :=
| DocxHeading (text : string) (level : Z) (centered : bool)
| DocxParagraph (text : string) (style : option string).

Definition docx_text (b : DocxBlock) : string :=
  match b with
  | DocxHeading t _ _ => t
  | DocxParagraph t _ => t
  end.

(** [doc.add_heading(text, level)] and [doc.add_paragraph(text, style)]
    on the list of blocks a document holds. *)
Definition add_heading (doc : list DocxBlock) (text : string) (level : Z)
  : list DocxBlock := doc ++ [DocxHeading text level false].

Definition add_paragraph (doc : list DocxBlock) (text : string)
    (style : option string) : list DocxBlock :=
  doc ++ [DocxParagraph text style].

(** The loop of lines 407-430.  Its cursor moves by one line on every
    path, so it is a traversal of [lines]. *)
Fixpoint docx_loop (lines : list string) (doc : list DocxBlock)
  : list DocxBlock :=
  match lines with
  | [] => doc
  | raw :: rest =>
      let line := Str.strip raw in
      if Str.is_empty line then docx_loop rest doc
      else if Str.startswith line "### " then
        docx_loop rest (add_heading doc (Str.drop 4 line) 3)
      else if Str.startswith line "## " then
        docx_loop rest (add_heading doc (Str.drop 3 line) 2)
      else if Str.startswith line "# " then
        docx_loop rest (add_heading doc (Str.drop 2 line) 1)
      else if is_bullet line then
        docx_loop rest (add_paragraph doc (Str.drop 2 line) (Some "List Bullet"))
      else if Re.match_numbered line then
        docx_loop rest
          (add_paragraph doc (Re.sub_numbered line) (Some "List Number"))
      else docx_loop rest (add_paragraph doc line None)
  end.

(** Lines 398-430: the blocks of the document that is saved. *)
Definition docx_document (title markdown : string) : list DocxBlock :=
  let doc := [DocxHeading title 0 true] in
  let lines := Str.split Str.newline markdown in
  docx_loop lines doc.

(** ** The result records and the JSON of the upload host *)

Record PdfResult := mkPdfResult {
  pdf_success : bool;
  pdf_id : option string;
  pdf_filename : option string;
  pdf_size_bytes : option Z;
  pdf_download_url : option string;
  pdf_error : option string;
}.

Record DocxResult := mkDocxResult {
  docx_success : bool;
  docx_id : option string;
  docx_filename : option string;
  docx_size_bytes : option Z;
  docx_download_url : option string;
  docx_error : option string;
}.

#[warnings="-register-all"]
Inductive Json :=
| JNull
| JBool (b : bool)
| JNum (n : Z)
| JFloat (q : Q)
| JStr (s : string)
| JArr (items : list Json)
| JObj (fields : list (string * Json)).

Fixpoint assoc (fields : list (string * Json)) (key : string) : option Json :=
  match fields with
  | [] => None
  | (k, v) :: rest => if String.eqb k key then Some v else assoc rest key
  end.

(** [type(j).__name__] of the Python value a JSON value is read as. *)
Definition type_name (j : Json) : string :=
  match j with
  | JNull => "NoneType"
  | JBool _ => "bool"
  | JNum _ => "int"
  | JFloat _ => "float"
  | JStr _ => "str"
  | JArr _ => "list"
  | JObj _ => "dict"
  end.

(** [j[key]] for a string key. *)
Definition json_getitem (j : Json) (key : string) : outcome Json :=
  match j with
  | JObj fields =>
      match assoc fields key with
      | Some v => Ok v
      | None => Raise (mkExn KeyError ("'" ++ key ++ "'"))
      end
  | JArr _ => Raise (mkExn TypeError "list indices must be integers or slices, not str")
  | JStr _ => Raise (mkExn TypeError "string indices must be integers, not 'str'")
  | _ =>
      Raise (mkExn TypeError
               ("'" ++ type_name j ++ "' object is not subscriptable"))
  end.

(** [url.replace(old, new)] where [url] came out of the JSON. *)
Definition json_replace (url : Json) (old new : string) : outcome string :=
  match url with
  | JStr s => Ok (Str.replace s old new)
  | _ =>
      Raise (mkExn AttributeError
               ("'" ++ type_name url ++ "' object has no attribute 'replace'"))
  end.

(** [SimpleDocTemplate(filename, pagesize=..., ...Margin=...)], in points. *)
Record DocTemplate := mkDocTemplate {
  doc_filename : string;
  pagesize : Z * Z;
  rightMargin : Z;
  leftMargin : Z;
  topMargin : Z;
  bottomMargin : Z;
}.

Definition letter : Z * Z := (612, 792)%Z.

(** ** The collaborators and the monad of the two tools *)

(** What the tools call outside the module.  Each call reads and changes
    the world and returns a value or raises an [Exception]. *)
Record Env := mkEnv {
  World : Type;
  Response : Type;
  reportlab : Reportlab;
  FILES_DIR : string;
  token_hex : nat -> World -> (Exn + string) * World;
  now_isoformat : World -> (Exn + string) * World;
  sha256_hexdigest : string -> string;
  build : DocTemplate -> list Flowable -> World -> (Exn + unit) * World;
  import_docx : World -> (Exn + unit) * World;
  save : list DocxBlock -> string -> World -> (Exn + unit) * World;
  stat_size : string -> World -> (Exn + Z) * World;
  post_file : string -> string -> string -> Z -> World
              -> (Exn + Response) * World;
  raise_for_status : Response -> Exn + unit;
  response_json : Response -> Exn + Json;
}.

Section Tools.
Context (E : Env).

Definition M (A : Type) : Type := World E -> outcome A * World E.

Definition ret {A} (a : A) : M A := fun w => (Ok a, w).

Definition bindM {A B} (c : M A) (k : A -> M B) : M B :=
  fun w =>
    match c w with
    | (Ok a, w') => k a w'
    | (Raise e, w') => (Raise e, w')
    | (OutOfFuel, w') => (OutOfFuel, w')
    end.

Definition of_sum {A} (r : Exn + A) : outcome A :=
  match r with inl e => Raise e | inr a => Ok a end.

(** A call of a collaborator. *)
Definition call {A} (f : World E -> (Exn + A) * World E) : M A :=
  fun w => let '(r, w') := f w in (of_sum r, w').

(** Code of the module itself that may raise. *)
Definition pure {A} (c : outcome A) : M A := fun w => (c, w).

(** [try: body except Exception as e: handler(e)] *)
Definition try_except {A} (body : M A) (handler : Exn -> M A) : M A :=
  fun w =>
    match body w with
    | (Raise e, w') => handler e w'
    | r => r
    end.

Notation "'let!' x ':=' c 'in' k" := (bindM c (fun x => k))
  (at level 10, x name, c at level 100, k at level 200).

Definition _generate_id (content : string) : M string :=
  let! random_token := call (token_hex E 16) in
  let! now := call (now_isoformat E) in
  let content_hash := Str.take 8 (sha256_hexdigest E (content ++ now)) in
  ret (random_token ++ content_hash).

Definition known_styles : list string := ["default"; "modern"; "minimal"].

(** Lines 302-304. *)
Definition validate_style (style : string) : string :=
  if bool_decide (style ∈ known_styles) then style else "default".

Definition upload_url : string := "https://tmpfiles.org/api/v1/upload".

(** Lines 343-354 and 439-450: the upload and the download link. *)
Definition upload (filename mime : string) : M string :=
  let! response := call (post_file E upload_url filename mime 30) in
  let! _ := pure (of_sum (raise_for_status E response)) in
  let! result := pure (of_sum (response_json E response)) in
  let! data := pure (json_getitem result "data") in
  let! url := pure (json_getitem data "url") in
  pure (json_replace url "tmpfiles.org/" "tmpfiles.org/dl/").

(** The flowables handed to [doc.build] (lines 313 and 326-334). *)
Definition pdf_flowables (rl : Reportlab) (title markdown style : string)
  : outcome (list Flowable) :=
  let '(custom_styles, accent_color) := get_styles style in
  let* title_style := getitem custom_styles "Title" in
  let* title_paragraph := new_Paragraph rl title title_style in
  let flowables := [title_paragraph; Spacer 1 12] in
  let* content_flowables :=
    _parse_markdown_to_flowables rl markdown custom_styles accent_color in
  Ok (flowables ++ content_flowables)%list.

(** The body of the [try] of [render_pdf]. *)
Definition render_pdf_body (title markdown style : string) : M PdfResult :=
  let style := validate_style style in
  let! pdf_id := _generate_id (title ++ markdown) in
  let filename := pdf_id ++ ".pdf" in
  let filepath := FILES_DIR E ++ "/" ++ filename in
  let doc := mkDocTemplate filepath letter 54 54 54 54 in
  let! flowables := pure (pdf_flowables (reportlab E) title markdown style) in
  let! _ := call (build E doc flowables) in
  let! size_bytes := call (stat_size E filepath) in
  let! download_url := upload filename "application/pdf" in
  ret (mkPdfResult true (Some pdf_id) (Some filename) (Some size_bytes)
         (Some download_url) None).

Definition render_pdf (title markdown style : string) : M PdfResult :=
  try_except (render_pdf_body title markdown style)
    (fun e =>
       ret (mkPdfResult false None None None None
              (Some ("PDF generation failed: " ++ exn_str e)))).

Definition docx_mime : string :=
  "application/vnd.openxmlformats-officedocument.wordprocessingml.document".

(** The body of the [try] of [render_docx]. *)
Definition render_docx_body (title markdown : string) : M DocxResult :=
  let! _ := call (import_docx E) in
  let! docx_id := _generate_id (title ++ markdown) in
  let filename := docx_id ++ ".docx" in
  let filepath := FILES_DIR E ++ "/" ++ filename in
  let doc := docx_document title markdown in
  let! _ := call (save E doc filepath) in
  let! size_bytes := call (stat_size E filepath) in
  let! download_url := upload filename docx_mime in
  ret (mkDocxResult true (Some docx_id) (Some filename) (Some size_bytes)
         (Some download_url) None).

Definition render_docx (title markdown : string) : M DocxResult :=
  try_except (render_docx_body title markdown)
    (fun e =>
       match exn_class e with
       | ImportError =>
           ret (mkDocxResult false None None None None
                  (Some "python-docx not installed. Install with: pip install python-docx"))
       | _ =>
           ret (mkDocxResult false None None None None
                  (Some ("DOCX generation failed: " ++ exn_str e)))
       end).

End Tools.

(** ** Notions the properties are stated with *)

(** The keys [_parse_markdown_to_flowables] and [render_pdf] read. *)
Definition style_keys : list string :=
  ["Title"; "Heading1"; "Heading2"; "Heading3"; "BodyText"; "BulletText"].

Definition has_styles (styles : gmap string ParagraphStyle) : Prop :=
  forall key, key ∈ style_keys -> is_Some (styles !! key).

(** The lines at the head of [rest] that start with a bar once stripped:
    the lines one table block is read from. *)
Fixpoint bar_run (rest : list string) : list string :=
  match rest with
  | [] => []
  | raw :: rest' =>
      if Str.startswith (Str.strip raw) "|" then raw :: bar_run rest' else []
  end.

Definition is_separator_line (raw : string) : Prop :=
  Re.match_separator (Str.strip raw) = true.

(** The rows of the tables among some flowables. *)
Definition tables_of (flowables : list Flowable) : list (list (list string)) :=
  flat_map (fun f => match f with Table data _ _ => [data] | _ => [] end)
    flowables.

(** Two libraries to run the parser with.  The first accepts every text;
    the second rejects every text on which the answer is the library's. *)
Definition lenient : Reportlab :=
  mkReportlab (fun _ _ => None) (fun _ => "must have at least a row and column").

Definition strict : Reportlab :=
  mkReportlab (fun _ _ => Some (mkExn ValueError "xml parser error"))
    (fun _ => "must have at least a row and column").

(** The three inputs the specification works out. *)
Definition table_input : string :=
  unlines ["| Phase | Duration |"; "|-------|----------|";
           "| Discovery | 2 weeks |"].

Definition list_input : string := unlines ["- one"; "- two"; ""; "- three"].

Definition bold_bullet_input : string := "- **bold** item".

(** What one turn of the loop of [render_docx] adds for a stripped line:
    nothing for a blank line, else one block. *)
Definition docx_block_of (line : string) : option DocxBlock :=
  if Str.is_empty line then None
  else if Str.startswith line "### " then
    Some (DocxHeading (Str.drop 4 line) 3 false)
  else if Str.startswith line "## " then
    Some (DocxHeading (Str.drop 3 line) 2 false)
  else if Str.startswith line "# " then
    Some (DocxHeading (Str.drop 2 line) 1 false)
  else if is_bullet line then
    Some (DocxParagraph (Str.drop 2 line) (Some "List Bullet"))
  else if Re.match_numbered line then
    Some (DocxParagraph (Re.sub_numbered line) (Some "List Number"))
  else Some (DocxParagraph line None).

Definition docx_table_input : string :=
  unlines ["| a | b |"; "|---|---|"; ""; "| 1 | 2 |"].

(** Two worlds to run the tools in.  In both the world counts the calls
    made to the outside.  In the first every call succeeds and the host
    answers with a link; in the second the host cannot be reached. *)
Definition host_answer : Json :=
  JObj [("status", JStr "success");
        ("data", JObj [("url", JStr "https://tmpfiles.org/123/report.pdf")])].

Definition online_env : Env :=
  mkEnv nat Json lenient "/tmp/pdf-generator-mcp"
    (fun _ w => (inr "00112233445566778899aabbccddeeff", S w))
    (fun w => (inr "2025-01-01T00:00:00", S w))
    (fun _ => "0123456789abcdef0123456789abcdef")
    (fun _ _ w => (inr tt, S w))
    (fun w => (inr tt, S w))
    (fun _ _ w => (inr tt, S w))
    (fun _ w => (inr 2048%Z, S w))
    (fun _ _ _ _ w => (inr host_answer, S w))
    (fun _ => inr tt)
    (fun r => inr r).

Definition offline_env : Env :=
  mkEnv nat Json lenient "/tmp/pdf-generator-mcp"
    (fun _ w => (inr "00112233445566778899aabbccddeeff", S w))
    (fun w => (inr "2025-01-01T00:00:00", S w))
    (fun _ => "0123456789abcdef0123456789abcdef")
    (fun _ _ w => (inr tt, S w))
    (fun w => (inr tt, S w))
    (fun _ _ w => (inr tt, S w))
    (fun _ w => (inr 2048%Z, S w))
    (fun _ _ _ _ w => (inl (mkExn OtherException "connection refused"), S w))
    (fun _ => inr tt)
    (fun r => inr r).

(** A computation that gives an answer in every world: a value or an
    exception, never a loop out of fuel. *)
Definition halts {E : Env} {A : Type} (c : M E A) : Prop :=
  forall w, (c w).1 <> OutOfFuel.

(** ** Notions the further properties are stated with *)

(** Every character of [s] passes the test [p]. *)
Fixpoint str_all (p : ascii -> bool) (s : string) : bool :=
  match s with
  | EmptyString => true
  | String c s' => p c && str_all p s'
  end.

(** The parser on the lines of a document: [parse_loop] from the first
    line with no flowables yet, as [_parse_markdown_to_flowables] runs it. *)
Definition parse_lines (rl : Reportlab) (styles : gmap string ParagraphStyle)
    (lines : list string) : outcome (list Flowable) :=
  parse_loop (length lines) rl styles lines 0 [].

(** The lines at the head of [rest] that the bullet loop and the numbered
    loop pass. *)
Fixpoint bullet_run (rest : list string) : list string :=
  match rest with
  | [] => []
  | raw :: rest' =>
      if is_bullet (Str.strip raw) then raw :: bullet_run rest' else []
  end.

Fixpoint numbered_run (rest : list string) : list string :=
  match rest with
  | [] => []
  | raw :: rest' =>
      if Re.match_numbered (Str.strip raw) then raw :: numbered_run rest'
      else []
  end.

(** The items built from the texts of a run, one [Paragraph] call after
    the other: the first call that raises ends the loop. *)
Fixpoint list_items (rl : Reportlab) (st : ParagraphStyle)
    (texts : list string) : outcome (list Flowable) :=
  match texts with
  | [] => Ok []
  | text :: texts' =>
      let* p := new_Paragraph rl text st in
      let* items := list_items rl st texts' in
      Ok (ListItem p :: items)
  end.

(** An item as the list loops build it, and a block that reportlab can
    lay out as the parser means it: a list with items, all of them items
    of one paragraph, a table with rows, and no item outside a list. *)
Definition is_item (f : Flowable) : bool :=
  match f with
  | ListItem (Paragraph _ _) => true
  | _ => false
  end.

Definition block_ok (f : Flowable) : bool :=
  match f with
  | Paragraph _ _ => true
  | Spacer _ _ => true
  | Table data _ _ => match data with [] => false | _ :: _ => true end
  | ListItem _ => false
  | ListFlowable items _ _ =>
      match items with [] => false | _ :: _ => forallb is_item items end
  end.

(** Two markdown texts with an empty line between them. *)
Definition blank_line_between (md1 md2 : string) : string :=
  (md1 ++ String Str.newline (String Str.newline md2))%string.

(** A character that is no star, and one that is neither a star nor a
    line feed: what a bold span may hold without ending early. *)
Definition no_star (c : ascii) : bool := negb (Ascii.eqb c "*").

Definition span_char (c : ascii) : bool :=
  negb (Ascii.eqb c "*") && negb (Ascii.eqb c Str.newline).




(** A pair of delimiters in [s]: two stars, one or more characters of one
    line, and two stars again. *)
Definition delimiter_pair (s : string) : Prop :=
  exists p g r,
    s = (p ++ "**" ++ g ++ "**" ++ r)%string /\
    Str.is_empty g = false /\
    str_all (fun c => negb (Ascii.eqb c Str.newline)) g = true.

(** [marked s out n]: [out] is [s] with [n] spans [**g**], one after the
    other, turned into [<b>g</b>], and every other character kept. *)
Inductive marked : string -> string -> nat -> Prop :=
| marked_end s : marked s s 0
| marked_span p g r out n :
    Str.is_empty g = false ->
    marked r out n ->
    marked (p ++ "**" ++ g ++ "**" ++ r) (p ++ "<b>" ++ g ++ "</b>" ++ out)
      (S n).

(** A character that python-docx can write: no control character other
    than tab, line feed and carriage return. *)
Definition xml_char (c : ascii) : bool :=
  let n := nat_of_ascii c in
  ((32 <=? n) || (n =? 9) || (n =? 10) || (n =? 13))%nat.

(** A style with its colours blanked: what is left is the typography. *)
Definition without_colors (st : ParagraphStyle) : ParagraphStyle :=
  mkStyle (style_name st) (parent st) (fontSize st) black (spaceBefore st)
    (spaceAfter st) (leading st) (leftIndent st) (borderPadding st)
    (borderWidth st) (fmap (fun _ => black) (borderColor st)).

(** ** [_slugify] *)

Module Text.

(** [c.isalnum()]: a letter, a decimal digit, or one of the superscript
    digits and fractions of the range. *)
Definition isalnum (c : ascii) : bool :=
  let n := nat_of_ascii c in
  (((48 <=? n) && (n <=? 57)) || ((65 <=? n) && (n <=? 90))
   || ((97 <=? n) && (n <=? 122))
   || (n =? 170) || (n =? 178) || (n =? 179) || (n =? 181) || (n =? 185)
   || (n =? 186) || ((188 <=? n) && (n <=? 190))
   || ((192 <=? n) && (n <=? 214)) || ((216 <=? n) && (n <=? 246))
   || ((248 <=? n) && (n <=? 255)))%nat.

(** [c.lower()]: the capital letters of the range lie 32 below their
    small letters. *)
Definition lower_char (c : ascii) : ascii :=
  let n := nat_of_ascii c in
  if (((65 <=? n) && (n <=? 90)) || ((192 <=? n) && (n <=? 214))
      || ((216 <=? n) && (n <=? 222)))%nat
  then ascii_of_nat (n + 32) else c.

(** [s.lower()] *)
Fixpoint lower (s : string) : string :=
  match s with
  | EmptyString => EmptyString
  | String c s' => String (lower_char c) (lower s')
  end.

(** ["".join(c if p(c) else "" for c in s)] *)
Fixpoint filter (p : ascii -> bool) (s : string) : string :=
  match s with
  | EmptyString => EmptyString
  | String c s' => if p c then String c (filter p s') else filter p s'
  end.

(** [s.split()]: the runs of characters that are no white space. *)
Fixpoint words (s : string) : list string :=
  match s with
  | EmptyString => []
  | String c s' =>
      if Str.isspace c then words s'
      else match s' with
           | EmptyString => [String c EmptyString]
           | String c' _ =>
               if Str.isspace c' then String c EmptyString :: words s'
               else match words s' with
                    | w :: ws => String c w :: ws
                    | [] => [String c EmptyString]
                    end
           end
  end.

End Text.

Definition _slugify (title : string) : string :=
  let slug := Text.lower title in
  let slug :=
    Text.filter (fun c => Text.isalnum c || Ascii.eqb c " ") slug in
  let slug := String.concat "-" (Text.words slug) in
  let slug := Str.take 50 slug in
  if Str.is_empty slug then "document" else slug.

(** A character a slug may hold: a letter or digit that [lower] leaves as
    it is, or the hyphen that joins the words. *)
Definition slug_char (c : ascii) : bool :=
  (Text.isalnum c && Ascii.eqb (Text.lower_char c) c) || Ascii.eqb c "-".

(** ** [serve_file] of [src/server.py] *)

Module Server.

(** [s.endswith(p)] *)
Fixpoint endswith (s p : string) : bool :=
  String.eqb s p ||
  match s with
  | EmptyString => false
  | String _ s' => endswith s' p
  end.

Inductive HttpResponse :=
| JSONResponse (body : Json) (status_code : Z)
| FileResponse (path media_type filename : string).

(** [serve_file] with the directory of the files, [joinpath] for what
    pathlib's [/] gives and [exists_] for what [filepath.exists()]
    answers. *)
Definition serve_file (files_dir : string)
    (joinpath : string -> string -> string) (exists_ : string -> bool)
    (filename : string) : HttpResponse :=
  let filepath := joinpath files_dir filename in
  if negb (exists_ filepath) then
    JSONResponse (JObj [("error", JStr "File not found")]) 404
  else
    let media_type :=
      if endswith filename ".pdf" then "application/pdf"
      else if endswith filename ".docx" then docx_mime
      else "application/octet-stream" in
    FileResponse filepath media_type filename.

End Server.

Example slugify_ex : _slugify "  Project  Proposal: Q3/2025!  " = "project-proposal-q32025".
Proof. reflexivity. Qed.

Example slugify_empty : _slugify "?!/" = "document".
Proof. reflexivity. Qed.

Example words_ex : Text.words "  ab  c " = ["ab"; "c"].
Proof. reflexivity. Qed.

Example strip_ex : Str.strip "  - a b  " = "- a b".
Proof. reflexivity. Qed.

Example split_ex : Str.split "|" "| a | b |" = [""; " a "; " b "; ""].
Proof. reflexivity. Qed.

Example split_empty : Str.split Str.newline "" = [""].
Proof. reflexivity. Qed.

Example inner_ex : Str.inner (Str.split "|" "| a | b |") = [" a "; " b "].
Proof. reflexivity. Qed.

Example replace_ex :
  Str.replace "https://tmpfiles.org/12/a.pdf" "tmpfiles.org/" "tmpfiles.org/dl/"
  = "https://tmpfiles.org/dl/12/a.pdf".
Proof. reflexivity. Qed.

Example numbered_ex : Re.sub_numbered "12. item 3. x" = "item 3. x".
Proof. reflexivity. Qed.

Example numbered_no : Re.match_numbered "12.item" = false.
Proof. reflexivity. Qed.

Example separator_ex : Re.match_separator "|-------|----------|" = true.
Proof. reflexivity. Qed.

Example separator_no : Re.match_separator "| Phase | Duration |" = false.
Proof. reflexivity. Qed.

Example separator_short : Re.match_separator "||" = false.
Proof. reflexivity. Qed.

Example bold_ex :
  Re.subn_bold "a **b** c **d e** f**" = ("a <b>b</b> c <b>d e</b> f**", 2%nat).
Proof. reflexivity. Qed.

Example bold_stars : Re.sub_bold "****a****" = "<b>**a</b>**".
Proof. reflexivity. Qed.

Example bold_four : Re.sub_bold "****" = "****".
Proof. reflexivity. Qed.

Example bold_five : Re.sub_bold "*****" = "<b>*</b>".
Proof. reflexivity. Qed.

Example parse_table_ex :
  _parse_markdown_to_flowables strict
    (unlines ["| Phase | Duration |"; "|-------|----------|";
              "| Discovery | 2 weeks |"])
    (get_styles "default").1 (get_styles "default").2
  = Ok [Spacer 1 10;
        Table [["Phase"; "Duration"]; ["Discovery"; "2 weeks"]] 1 table_style;
        Spacer 1 10].
Proof. vm_compute. reflexivity. Qed.

(** * Properties *)

Local Open Scope nat_scope.

(** ** Strings *)

Section StringFacts.

Lemma startswith_contains s p : Str.startswith s p = true -> Str.contains s p = true.
Proof. destruct s; simpl; intros ->; reflexivity. Qed.

Lemma contains_tail c s p :
  Str.contains (String c s) p = false -> Str.contains s p = false.
Proof. simpl. intros H. apply orb_false_iff in H. tauto. Qed.

Lemma contains_head s p :
  Str.contains s p = false -> Str.startswith s p = false.
Proof.
  intros H. destruct (Str.startswith s p) eqn:E; [|reflexivity].
  apply startswith_contains in E. congruence.
Qed.

(** A prefix test that succeeds splits the string. *)
Lemma startswith_drop s p :
  Str.startswith s p = true -> s = (p ++ Str.drop (String.length p) s)%string.
Proof.
  revert s. induction p as [|a p IH]; intros s H.
  - reflexivity.
  - destruct s as [|b s]; simpl in H; [discriminate|].
    apply andb_true_iff in H as [Hab Hp].
    apply Ascii.eqb_eq in Hab. subst b.
    change (String a s = String a (p ++ Str.drop (String.length p) s)%string).
    f_equal. apply IH, Hp.
Qed.

End StringFacts.

(** ** Inline bold *)

Lemma match_bold_needs_stars s :
  Str.contains s "**" = false -> Re.match_bold s = None.
Proof.
  intros H. unfold Re.match_bold. rewrite (contains_head _ _ H). reflexivity.
Qed.

Lemma subn_bold_from_plain s :
  Str.contains s "**" = false -> Re.subn_bold_from 0 s = (s, 0).
Proof.
  induction s as [|c s IH]; intros H; [reflexivity|].
  cbn [Re.subn_bold_from].
  rewrite (match_bold_needs_stars _ H), (IH (contains_tail _ _ _ H)).
  reflexivity.
Qed.

(** ** The styles of [get_styles] *)

Lemma get_styles_has_styles style_name : has_styles (get_styles style_name).1.
Proof.
  intros key Hk. unfold get_styles, theme_colors.
  destruct (String.eqb style_name "modern"), (String.eqb style_name "minimal");
    cbn [fst];
    repeat (apply elem_of_cons in Hk as [->|Hk]; [vm_compute; eauto|]);
    inversion Hk.
Qed.



Ltac style_key := unfold style_keys; repeat constructor.

(** ** The inner loops return, and pass the line that opened them *)

(** What a constructor call gives: its flowable, or an exception. *)
Lemma new_Paragraph_ok rl text st p :
  new_Paragraph rl text st = Ok p -> p = Paragraph text st.
Proof.
  unfold new_Paragraph. destruct (bold_markup text); [congruence|].
  destruct (paragraph_error rl text st); [discriminate|congruence].
Qed.

Lemma new_Paragraph_answers rl text st : new_Paragraph rl text st <> OutOfFuel.
Proof.
  unfold new_Paragraph. destruct (bold_markup text); [discriminate|].
  destruct (paragraph_error rl text st); discriminate.
Qed.

Lemma new_Paragraph_known rl text st :
  bold_markup text = true -> new_Paragraph rl text st = Ok (Paragraph text st).
Proof. unfold new_Paragraph. intros ->. reflexivity. Qed.

Lemma new_Table_ok rl data repeatRows style t :
  new_Table rl data repeatRows style = Ok t ->
  t = Table data repeatRows style /\ forallb no_cells data = false.
Proof.
  unfold new_Table. destruct (forallb no_cells data); [discriminate|].
  intros [= <-]. split; reflexivity.
Qed.

Lemma new_Table_answers rl data repeatRows style :
  new_Table rl data repeatRows style <> OutOfFuel.
Proof. unfold new_Table. destruct (forallb no_cells data); discriminate. Qed.

(** Takes an answer of a call apart: the value, or the goal is closed by
    the exception passing through. *)
Ltac call_cases :=
  repeat match goal with
         | |- context [bind (getitem ?s ?k) _] =>
             destruct (getitem s k); cbn [bind]; try reflexivity
         | |- context [bind (new_Paragraph ?rl ?t ?st) _] =>
             destruct (new_Paragraph rl t st); cbn [bind]; try reflexivity
         | |- context [bind (new_Table ?rl ?d ?n ?st) _] =>
             destruct (new_Table rl d n st); cbn [bind]; try reflexivity
         end.

Lemma bullet_loop_pos rl styles raw rest r :
  is_bullet (Str.strip raw) = true ->
  bullet_loop rl styles (raw :: rest) = Ok r -> 1 <= r.2.
Proof.
  simpl. intros ->.
  destruct (getitem styles "BulletText"); simpl; [|discriminate..].
  destruct (new_Paragraph rl _ _); simpl; [|discriminate..].
  destruct (bullet_loop rl styles rest); simpl; [|discriminate..].
  intros [= <-]. simpl. lia.
Qed.

Lemma numbered_loop_pos rl styles raw rest r :
  Re.match_numbered (Str.strip raw) = true ->
  numbered_loop rl styles (raw :: rest) = Ok r -> 1 <= r.2.
Proof.
  simpl. intros ->.
  destruct (getitem styles "BulletText"); simpl; [|discriminate..].
  destruct (new_Paragraph rl _ _); simpl; [|discriminate..].
  destruct (numbered_loop rl styles rest); simpl; [|discriminate..].
  intros [= <-]. simpl. lia.
Qed.

Lemma bullet_loop_answers rl styles rest : bullet_loop rl styles rest <> OutOfFuel.
Proof.
  induction rest as [|raw rest IH]; simpl; [discriminate|].
  destruct (is_bullet (Str.strip raw)); [|discriminate].
  unfold getitem. destruct (styles !! "BulletText"); cbn [bind]; [|discriminate].
  pose proof (new_Paragraph_answers rl
                (Re.sub_bold (Str.drop 2 (Str.strip raw))) p) as Hp.
  destruct (new_Paragraph rl _ _); cbn [bind]; [|discriminate|contradiction].
  destruct (bullet_loop rl styles rest); cbn [bind];
    [discriminate|discriminate|contradiction].
Qed.

Lemma numbered_loop_answers rl styles rest :
  numbered_loop rl styles rest <> OutOfFuel.
Proof.
  induction rest as [|raw rest IH]; simpl; [discriminate|].
  destruct (Re.match_numbered (Str.strip raw)); [|discriminate].
  unfold getitem. destruct (styles !! "BulletText"); cbn [bind]; [|discriminate].
  pose proof (new_Paragraph_answers rl
                (Re.sub_bold (Re.sub_numbered (Str.strip raw))) p) as Hp.
  destruct (new_Paragraph rl _ _); cbn [bind]; [|discriminate|contradiction].
  destruct (numbered_loop rl styles rest); cbn [bind];
    [discriminate|discriminate|contradiction].
Qed.

Lemma table_loop_pos raw rest :
  Str.startswith (Str.strip raw) "|" = true ->
  1 <= (table_loop (raw :: rest)).2.
Proof.
  simpl. intros ->. destruct (table_loop rest) as [rows n].
  destruct (Re.match_separator (Str.strip raw)); simpl; lia.
Qed.

(** ** The main loop *)

(** One turn of the loop, as the source writes it. *)
Lemma parse_loop_turn fuel rl styles lines i flowables raw :
  lines !! i = Some raw ->
  parse_loop (S fuel) rl styles lines i flowables =
  let line := Str.strip raw in
  if Str.is_empty line then
    parse_loop fuel rl styles lines (i + 1) (flowables ++ [Spacer 1 6])
  else if Str.startswith line "### " then
    let* st := getitem styles "Heading3" in
    let* p := new_Paragraph rl (Str.drop 4 line) st in
    parse_loop fuel rl styles lines (i + 1) (flowables ++ [p])
  else if Str.startswith line "## " then
    let* st := getitem styles "Heading2" in
    let* p := new_Paragraph rl (Str.drop 3 line) st in
    parse_loop fuel rl styles lines (i + 1) (flowables ++ [p])
  else if Str.startswith line "# " then
    let* st := getitem styles "Heading1" in
    let* p := new_Paragraph rl (Str.drop 2 line) st in
    parse_loop fuel rl styles lines (i + 1) (flowables ++ [p])
  else if Str.contains line "**" then
    let* st := getitem styles "BodyText" in
    let* p := new_Paragraph rl (Re.sub_bold line) st in
    parse_loop fuel rl styles lines (i + 1) (flowables ++ [p])
  else if is_bullet line then
    let* r := bullet_loop rl styles (drop i lines) in
    parse_loop fuel rl styles lines (i + r.2)
      (flowables ++ [ListFlowable r.1 "bullet" 20])
  else if Re.match_numbered line then
    let* r := numbered_loop rl styles (drop i lines) in
    parse_loop fuel rl styles lines (i + r.2)
      (flowables ++ [ListFlowable r.1 "1" 20])
  else if Str.startswith line "|" then
    match (table_loop (drop i lines)).1 with
    | [] =>
        parse_loop fuel rl styles lines (i + (table_loop (drop i lines)).2)
          flowables
    | _ :: _ =>
        let* table :=
          new_Table rl (table_loop (drop i lines)).1 1 table_style in
        parse_loop fuel rl styles lines (i + (table_loop (drop i lines)).2)
          (flowables ++ [Spacer 1 10; table; Spacer 1 10])
    end
  else
    let* st := getitem styles "BodyText" in
    let* p := new_Paragraph rl (Re.sub_bold line) st in
    parse_loop fuel rl styles lines (i + 1) (flowables ++ [p]).
Proof.
  intros Hi. cbn [parse_loop]. rewrite Hi. cbv zeta.
  repeat match goal with
         | |- context [if ?b then _ else _] =>
             lazymatch type of b with bool => destruct b end
         end;
    try reflexivity.
  - destruct (bullet_loop rl styles (drop i lines)) as [[items n]| |]; reflexivity.
  - destruct (numbered_loop rl styles (drop i lines)) as [[items n]| |]; reflexivity.
  - destruct (table_loop (drop i lines)) as [rows n]. reflexivity.
Qed.

Lemma parse_loop_at_end fuel rl styles lines i flowables :
  lines !! i = None -> parse_loop fuel rl styles lines i flowables = Ok flowables.
Proof. intros Hi. destruct fuel; simpl; rewrite Hi; reflexivity. Qed.

(** Every turn moves the cursor forward, so as many turns as there are
    lines left are enough: the loop ends, with blocks or with an
    exception. *)
Lemma parse_loop_answers rl styles :
  forall fuel lines i flowables,
    length lines - i <= fuel ->
    parse_loop fuel rl styles lines i flowables <> OutOfFuel.
Proof.
  induction fuel as [|fuel IH]; intros lines i acc Hf.
  - destruct (lines !! i) eqn:Hi.
    + apply lookup_lt_Some in Hi. lia.
    + rewrite parse_loop_at_end by assumption. discriminate.
  - destruct (lines !! i) as [raw|] eqn:Hi.
    2: { rewrite parse_loop_at_end by assumption. discriminate. }
    pose proof (lookup_lt_Some _ _ _ Hi) as Hlt.
    pose proof (drop_S _ _ _ Hi) as Hd.
    rewrite (parse_loop_turn _ _ _ _ _ _ _ Hi). cbv zeta.
    assert (Hpar : forall key text,
               (let* st := getitem styles key in
                let* p := new_Paragraph rl text st in
                parse_loop fuel rl styles lines (i + 1) (acc ++ [p]))
               <> OutOfFuel).
    { intros key text. unfold getitem.
      destruct (styles !! key) as [st|]; cbn [bind]; [|discriminate].
      pose proof (new_Paragraph_answers rl text st) as Hp.
      destruct (new_Paragraph rl text st); cbn [bind];
        [apply IH; lia|discriminate|contradiction]. }
    destruct (Str.is_empty (Str.strip raw)); [apply IH; lia|].
    destruct (Str.startswith (Str.strip raw) "### "); [apply Hpar|].
    destruct (Str.startswith (Str.strip raw) "## "); [apply Hpar|].
    destruct (Str.startswith (Str.strip raw) "# "); [apply Hpar|].
    destruct (Str.contains (Str.strip raw) "**"); [apply Hpar|].
    destruct (is_bullet (Str.strip raw)) eqn:Hb.
    { pose proof (bullet_loop_answers rl styles (drop i lines)) as Ha.
      destruct (bullet_loop rl styles (drop i lines)) as [r| |] eqn:Hr;
        cbn [bind]; [|discriminate|contradiction].
      rewrite Hd in Hr.
      pose proof (bullet_loop_pos _ _ _ _ _ Hb Hr). apply IH. lia. }
    destruct (Re.match_numbered (Str.strip raw)) eqn:Hn.
    { pose proof (numbered_loop_answers rl styles (drop i lines)) as Ha.
      destruct (numbered_loop rl styles (drop i lines)) as [r| |] eqn:Hr;
        cbn [bind]; [|discriminate|contradiction].
      rewrite Hd in Hr.
      pose proof (numbered_loop_pos _ _ _ _ _ Hn Hr). apply IH. lia. }
    destruct (Str.startswith (Str.strip raw) "|") eqn:Ht; [|apply Hpar].
    pose proof (table_loop_pos raw (drop (S i) lines) Ht) as Hp.
    rewrite <- Hd in Hp.
    destruct (table_loop (drop i lines)).1 as [|row rows]; [apply IH; lia|].
    pose proof (new_Table_answers rl (row :: rows) 1 table_style) as Htab.
    destruct (new_Table rl (row :: rows) 1 table_style); cbn [bind];
      [apply IH; lia|discriminate|contradiction].
Qed.

Lemma parse_markdown_answers rl markdown styles accent :
  _parse_markdown_to_flowables rl markdown styles accent <> OutOfFuel.
Proof.
  unfold _parse_markdown_to_flowables. apply parse_loop_answers. lia.
Qed.


(** ** Tables without rows *)

Lemma sep_class_not_star c : Re.sep_class c = true -> Ascii.eqb "*" c = false.
Proof.
  intros H. destruct (Ascii.eqb_spec "*" c) as [<-|]; [|reflexivity].
  discriminate H.
Qed.

Lemma bar_in_sep_class c : Ascii.eqb c "|" = true -> Re.sep_class c = true.
Proof. intros H. apply Ascii.eqb_eq in H. subst c. reflexivity. Qed.

Lemma sep_rest_no_stars r :
  Re.sep_rest r = true -> Str.contains r "**" = false.
Proof.
  induction r as [|c r IH]; [discriminate|].
  cbn [Re.sep_rest Str.contains Str.startswith]. intros H.
  apply orb_true_iff in H as [H|H]; apply andb_true_iff in H as [Hc Hr].
  - rewrite (sep_class_not_star c (bar_in_sep_class c Hc)).
    apply orb_true_iff in Hr as [Hr|Hr].
    + destruct r; [reflexivity|discriminate].
    + apply String.eqb_eq in Hr. subst r. reflexivity.
  - rewrite (sep_class_not_star c Hc). apply IH, Hr.
Qed.

(** A separator line holds no stars, so the bold test of line 201 lets it
    through to the table test. *)
Lemma separator_no_stars s :
  Re.match_separator s = true -> Str.contains s "**" = false.
Proof.
  destruct s as [|c0 [|c r]]; try discriminate.
  cbn [Re.match_separator]. intros H.
  apply andb_true_iff in H as [H Hr]. apply andb_true_iff in H as [H0 Hc].
  cbn [Str.contains Str.startswith].
  rewrite (sep_class_not_star c0 (bar_in_sep_class c0 H0)).
  rewrite (sep_class_not_star c Hc). apply sep_rest_no_stars, Hr.
Qed.

(** What lines 187-218 decide for a line that starts with a bar. *)
Lemma bar_line_tests s :
  Str.startswith s "|" = true ->
  Str.is_empty s = false /\ Str.startswith s "### " = false /\
  Str.startswith s "## " = false /\ Str.startswith s "# " = false /\
  is_bullet s = false /\ Re.match_numbered s = false.
Proof.
  destruct s as [|c s]; [discriminate|]. cbn [Str.startswith]. intros H.
  apply andb_true_iff in H as [H _]. apply Ascii.eqb_eq in H. subst c.
  repeat split; reflexivity.
Qed.

Lemma table_loop_all_separators rest :
  Forall is_separator_line (bar_run rest) ->
  table_loop rest = ([], length (bar_run rest)).
Proof.
  induction rest as [|raw rest IH]; [reflexivity|].
  cbn [bar_run table_loop].
  destruct (Str.startswith (Str.strip raw) "|"); [|reflexivity].
  intros H. inversion H as [|? ? Hsep Hrest]; subst.
  rewrite (IH Hrest). unfold is_separator_line in Hsep. rewrite Hsep.
  reflexivity.
Qed.

(** C8. A table block all of whose lines are separator lines adds nothing
    to the output: the turn that reads it passes the whole block and
    leaves the flowables as they were, with no table and no spacer. *)
Theorem table_without_rows_adds_nothing
    (fuel : nat) (rl : Reportlab) (styles : gmap string ParagraphStyle)
    (lines : list string) (i : nat) (flowables : list Flowable)
    (raw : string) :
  lines !! i = Some raw ->
  Str.startswith (Str.strip raw) "|" = true ->
  Forall is_separator_line (bar_run (drop i lines)) ->
  table_loop (drop i lines) = ([], length (bar_run (drop i lines))) /\
  parse_loop (S fuel) rl styles lines i flowables =
  parse_loop fuel rl styles lines (i + length (bar_run (drop i lines))) flowables.
Proof.
  intros Hi Hbar Hall.
  pose proof (table_loop_all_separators _ Hall) as Ht.
  split; [exact Ht|].
  assert (Hsep : Re.match_separator (Str.strip raw) = true).
  { rewrite (drop_S _ _ _ Hi) in Hall. cbn [bar_run] in Hall.
    rewrite Hbar in Hall. inversion Hall; assumption. }
  destruct (bar_line_tests _ Hbar) as (He & H3 & H2 & H1 & Hb & Hn).
  rewrite (parse_loop_turn _ _ _ _ _ _ _ Hi). cbv zeta.
  rewrite He, H3, H2, H1, (separator_no_stars _ Hsep), Hb, Hn, Hbar, Ht.
  reflexivity.
Qed.

Lemma table_without_rows_adds_nothing_witness :
  Forall is_separator_line
    (bar_run (drop 1 ["intro"; "|---|---|"; "| :-- | --: |"; "outro"])) /\
  parse_loop 3 strict (get_styles "default").1
    ["intro"; "|---|---|"; "| :-- | --: |"; "outro"] 1 [] =
  parse_loop 2 strict (get_styles "default").1
    ["intro"; "|---|---|"; "| :-- | --: |"; "outro"] 3 [].
Proof.
  assert (Hall : Forall is_separator_line
            (bar_run (drop 1 ["intro"; "|---|---|"; "| :-- | --: |"; "outro"])))
    by (repeat constructor).
  split; [exact Hall|].
  exact (proj2 (table_without_rows_adds_nothing 2 strict
                  (get_styles "default").1
                  ["intro"; "|---|---|"; "| :-- | --: |"; "outro"] 1 []
                  "|---|---|" eq_refl eq_refl Hall)).
Defined.

(** ** The worked inputs *)

(** C5. The three-line table input parses to one table with the rows
    [Phase, Duration] and [Discovery, 2 weeks], set between the two spacers
    every table gets: the separator line matches the separator pattern and
    adds no row, and a row is the line split at the bars, without the first
    and the last field, each cell stripped. *)
Theorem table_input_parses_to_one_table
    (rl : Reportlab) (styles : gmap string ParagraphStyle) (accent : Color) :
  let rows := [["Phase"; "Duration"]; ["Discovery"; "2 weeks"]] in
  exists blocks,
    _parse_markdown_to_flowables rl table_input styles accent = Ok blocks /\
    blocks = [Spacer 1 10; Table rows 1 table_style; Spacer 1 10] /\
    tables_of blocks = [rows] /\
    Re.match_separator "|-------|----------|" = true /\
    Str.split "|" "| Phase | Duration |" = [""; " Phase "; " Duration "; ""] /\
    map Str.strip (Str.inner (Str.split "|" "| Phase | Duration |"))
    = ["Phase"; "Duration"].
Proof.
  intros rows. eexists. split; [vm_compute; reflexivity|].
  repeat split.
Qed.

(** Rewrites the turn of the loop at a known line. *)
Ltac parse_turn :=
  match goal with
  | |- context [parse_loop (S ?f) ?rl ?st ?ls ?i ?acc] =>
      let r := eval vm_compute in (ls !! i) in
      match r with
      | Some ?raw => rewrite (parse_loop_turn f rl st ls i acc raw eq_refl)
      end
  end.

(** Decides the tests on known lines. *)
Ltac eval_tests :=
  repeat match goal with
         | |- context [if ?b then _ else _] =>
             lazymatch type of b with
             | bool => let v := eval vm_compute in b in change b with v
             end; cbv iota
         end.

Lemma getitem_some styles key st :
  styles !! key = Some st -> getitem styles key = Ok st.
Proof. intros H. unfold getitem. rewrite H. reflexivity. Qed.

(** C6. A blank line ends a list and becomes a spacer.  In general: the
    list loops stop at a blank line without passing it, and the main loop
    turns a blank line into [Spacer(1, 6)].  On the input of two bullets, a
    blank line and a third bullet this gives two lists, of [one, two] and
    of [three], with one spacer between them.  A line feed after the last
    bullet, which makes a fifth, empty line, is stripped before the split
    and changes nothing. *)
Theorem blank_line_ends_list
    (rl : Reportlab) (styles : gmap string ParagraphStyle) (accent : Color)
    (st : ParagraphStyle) :
  styles !! "BulletText" = Some st ->
  (forall raw rest,
      Str.is_empty (Str.strip raw) = true ->
      bullet_loop rl styles (raw :: rest) = Ok ([], 0) /\
      numbered_loop rl styles (raw :: rest) = Ok ([], 0)) /\
  (forall fuel lines i flowables raw,
      lines !! i = Some raw ->
      Str.is_empty (Str.strip raw) = true ->
      parse_loop (S fuel) rl styles lines i flowables =
      parse_loop fuel rl styles lines (i + 1) (flowables ++ [Spacer 1 6])) /\
  _parse_markdown_to_flowables rl list_input styles accent =
  Ok [ListFlowable
        [ListItem (Paragraph "one" st); ListItem (Paragraph "two" st)]
        "bullet" 20;
      Spacer 1 6;
      ListFlowable [ListItem (Paragraph "three" st)] "bullet" 20] /\
  _parse_markdown_to_flowables rl
    (unlines ["- one"; "- two"; ""; "- three"; ""]) styles accent =
  _parse_markdown_to_flowables rl list_input styles accent.
Proof.
  intros Hst. split; [|split; [|split]]; [| | |reflexivity].
  - intros raw rest He. cbn [bullet_loop numbered_loop].
    destruct (Str.strip raw); [|discriminate]. split; reflexivity.
  - intros fuel lines i acc raw Hi He.
    rewrite (parse_loop_turn _ _ _ _ _ _ _ Hi). cbv zeta. rewrite He.
    reflexivity.
  - unfold _parse_markdown_to_flowables.
    change (lines_of list_input) with ["- one"; "- two"; ""; "- three"].
    change (length ["- one"; "- two"; ""; "- three"]) with 4.
    pose proof (getitem_some _ _ _ Hst) as Hg.
    repeat first
      [ parse_turn
      | progress eval_tests
      | rewrite Hg
      | rewrite new_Paragraph_known by reflexivity
      | progress cbn [bind fst snd bullet_loop drop app Nat.add]
      | progress cbv zeta ].
    rewrite parse_loop_at_end by reflexivity. reflexivity.
Qed.

Lemma blank_line_ends_list_witness :
  _parse_markdown_to_flowables strict list_input (get_styles "default").1
    (get_styles "default").2
  = Ok [ListFlowable
          [ListItem (Paragraph "one"
             (mkStyle "CustomBullet" "BodyText" 11 (HexColor "#333333")
                (Some 4%Z) (Some 4%Z) None (Some 20%Z) None None None));
           ListItem (Paragraph "two"
             (mkStyle "CustomBullet" "BodyText" 11 (HexColor "#333333")
                (Some 4%Z) (Some 4%Z) None (Some 20%Z) None None None))]
          "bullet" 20;
        Spacer 1 6;
        ListFlowable
          [ListItem (Paragraph "three"
             (mkStyle "CustomBullet" "BodyText" 11 (HexColor "#333333")
                (Some 4%Z) (Some 4%Z) None (Some 20%Z) None None None))]
          "bullet" 20].
Proof.
  apply (blank_line_ends_list strict (get_styles "default").1
           (get_styles "default").2).
  vm_compute. reflexivity.
Defined.

(** C1. The line [- **bold** item] starts with a bullet marker and holds
    stars.  As the first line of its block it is read by the bold test of
    line 201, which stands before the bullet test of line 206: the output
    is one paragraph that keeps the marker, and no list.  A line of the
    same shape that follows a bullet line is read by the inner loop of
    line 208 and becomes a list item. *)
Theorem bold_bullet_line_is_paragraph (rl : Reportlab) :
  is_bullet bold_bullet_input = true /\
  Str.contains bold_bullet_input "**" = true /\
  _parse_markdown_to_flowables rl bold_bullet_input (get_styles "default").1
    (get_styles "default").2
  = Ok [Paragraph "- <b>bold</b> item"
          (mkStyle "CustomBody" "BodyText" 11 (HexColor "#333333")
             (Some 6%Z) (Some 6%Z) (Some 16%Z) None None None None)] /\
  _parse_markdown_to_flowables rl (unlines ["- one"; bold_bullet_input])
    (get_styles "default").1 (get_styles "default").2
  = Ok [ListFlowable
          [ListItem (Paragraph "one"
             (mkStyle "CustomBullet" "BodyText" 11 (HexColor "#333333")
                (Some 4%Z) (Some 4%Z) None (Some 20%Z) None None None));
           ListItem (Paragraph "<b>bold</b> item"
             (mkStyle "CustomBullet" "BodyText" 11 (HexColor "#333333")
                (Some 4%Z) (Some 4%Z) None (Some 20%Z) None None None))]
          "bullet" 20].
Proof. repeat split; vm_compute; reflexivity. Qed.

(** ** The body loop of [render_docx] *)

Lemma docx_loop_blocks lines doc :
  docx_loop lines doc =
  (doc ++ omap (fun raw => docx_block_of (Str.strip raw)) lines)%list.
Proof.
  revert doc. induction lines as [|raw rest IH]; intros doc.
  - simpl. rewrite app_nil_r. reflexivity.
  - cbn [docx_loop omap list_omap]. unfold docx_block_of.
    unfold add_heading, add_paragraph. cbv zeta.
    repeat match goal with
           | |- context [if ?b then _ else _] =>
               lazymatch type of b with bool => destruct b end
           end;
      rewrite IH; try rewrite <- app_assoc; reflexivity.
Qed.

Lemma docx_loop_app l1 l2 doc :
  docx_loop (l1 ++ l2) doc = docx_loop l2 (docx_loop l1 doc).
Proof.
  rewrite !docx_loop_blocks, omap_app, app_assoc. reflexivity.
Qed.

(** C2, as the code has it. In [render_docx] a blank line adds no block.
    A line that starts with a bar is not dropped: no test of the loop
    reads it as a table, so the last branch adds it as one plain
    paragraph whose text is the stripped line. *)
Theorem docx_blank_dropped_bar_kept
    (title markdown : string) (pre post : list string) (raw : string) :
  Str.split Str.newline markdown = (pre ++ raw :: post)%list ->
  (Str.is_empty (Str.strip raw) = true ->
   docx_document title markdown =
   docx_loop post (docx_loop pre [DocxHeading title 0 true])) /\
  (Str.startswith (Str.strip raw) "|" = true ->
   docx_document title markdown =
   docx_loop post
     (docx_loop pre [DocxHeading title 0 true]
      ++ [DocxParagraph (Str.strip raw) None])).
Proof.
  intros Hsplit. unfold docx_document. cbv zeta. rewrite Hsplit.
  rewrite docx_loop_app. cbn [docx_loop]. split.
  - intros ->. reflexivity.
  - intros Hbar.
    destruct (bar_line_tests _ Hbar) as (He & H3 & H2 & H1 & Hb & Hn).
    rewrite He, H3, H2, H1, Hb, Hn. reflexivity.
Qed.

Lemma docx_blank_dropped_bar_kept_witness :
  docx_document "T" docx_table_input =
  docx_loop [""; "| 1 | 2 |"]
    (docx_loop ["| a | b |"] [DocxHeading "T" 0 true]
     ++ [DocxParagraph "|---|---|" None]).
Proof.
  apply (docx_blank_dropped_bar_kept "T" docx_table_input ["| a | b |"]
           [""; "| 1 | 2 |"] "|---|---|"); reflexivity.
Defined.

(** C2, as the claim states it, fails: the rows and the separator line of
    a table all reach the document, each as a paragraph. *)
Lemma docx_keeps_table_lines :
  Forall (fun raw => Str.is_empty (Str.strip raw) = true \/
                     Str.startswith (Str.strip raw) "|" = true)
    (Str.split Str.newline docx_table_input) /\
  docx_document "T" docx_table_input =
  [DocxHeading "T" 0 true; DocxParagraph "| a | b |" None;
   DocxParagraph "|---|---|" None; DocxParagraph "| 1 | 2 |" None].
Proof.
  split; [|reflexivity].
  change (Str.split Str.newline docx_table_input)
    with ["| a | b |"; "|---|---|"; ""; "| 1 | 2 |"].
  repeat (constructor; [first [left; reflexivity | right; reflexivity]|]).
  constructor.
Qed.

(** ** [render_docx] copies the text of a line *)

Lemma digit_not_star c : Str.isdigit c = true -> Ascii.eqb "*" c = false.
Proof.
  intros H. destruct (Ascii.eqb_spec "*" c) as [<-|]; [|reflexivity].
  discriminate H.
Qed.

Lemma occurrences_skip c s :
  Ascii.eqb "*" c = false ->
  Str.occurrences (String c s) "**" = Str.occurrences s "**".
Proof. intros H. cbn [Str.occurrences Str.startswith]. rewrite H. reflexivity. Qed.

Lemma after_digits_verbatim s r :
  Re.after_digits s = Some r ->
  exists marker, s = (marker ++ r)%string /\
                 Str.occurrences s "**" = Str.occurrences r "**".
Proof.
  induction s as [|c s IH]; [discriminate|]. cbn [Re.after_digits].
  destruct (Str.isdigit c) eqn:Hd.
  - intros H. destruct (IH H) as (m & -> & Ho).
    exists (String c m). split; [reflexivity|].
    rewrite occurrences_skip by (apply digit_not_star, Hd). exact Ho.
  - destruct (Str.startswith (String c s) ". ") eqn:Hp; [|discriminate].
    intros [= <-]. exists ". "%string.
    split; [apply (startswith_drop _ _ Hp)|].
    rewrite (startswith_drop _ _ Hp) at 1. reflexivity.
Qed.

Lemma numbered_rest_verbatim s r :
  Re.numbered_rest s = Some r ->
  exists marker, s = (marker ++ r)%string /\
                 Str.occurrences s "**" = Str.occurrences r "**".
Proof.
  destruct s as [|c s]; [discriminate|]. cbn [Re.numbered_rest].
  destruct (Str.isdigit c) eqn:Hd; [|discriminate].
  intros H. destruct (after_digits_verbatim _ _ H) as (m & -> & Ho).
  exists (String c m). split; [reflexivity|].
  rewrite occurrences_skip by (apply digit_not_star, Hd). exact Ho.
Qed.

(** The text of a block is the stripped line without its marker. *)
Lemma docx_block_verbatim line b :
  docx_block_of line = Some b ->
  exists marker, line = (marker ++ docx_text b)%string /\
                 Str.occurrences (docx_text b) "**" = Str.occurrences line "**".
Proof.
  unfold docx_block_of, is_bullet.
  destruct (Str.is_empty line); [discriminate|].
  destruct (Str.startswith line "### ") eqn:H3.
  { intros [= <-]. exists "### "%string. cbn [docx_text].
    split; [apply (startswith_drop _ _ H3)|].
    rewrite (startswith_drop _ _ H3) at 2. reflexivity. }
  destruct (Str.startswith line "## ") eqn:H2.
  { intros [= <-]. exists "## "%string. cbn [docx_text].
    split; [apply (startswith_drop _ _ H2)|].
    rewrite (startswith_drop _ _ H2) at 2. reflexivity. }
  destruct (Str.startswith line "# ") eqn:H1.
  { intros [= <-]. exists "# "%string. cbn [docx_text].
    split; [apply (startswith_drop _ _ H1)|].
    rewrite (startswith_drop _ _ H1) at 2. reflexivity. }
  destruct (Str.startswith line "- ") eqn:Hm.
  { intros [= <-]. exists "- "%string. cbn [docx_text].
    split; [apply (startswith_drop _ _ Hm)|].
    rewrite (startswith_drop _ _ Hm) at 2. reflexivity. }
  destruct (Str.startswith line "* ") eqn:Hs.
  { intros [= <-]. exists "* "%string. cbn [docx_text].
    split; [apply (startswith_drop _ _ Hs)|].
    rewrite (startswith_drop _ _ Hs) at 2. reflexivity. }
  cbn [orb]. unfold Re.match_numbered, Re.sub_numbered.
  destruct (Re.numbered_rest line) as [r|] eqn:Hn.
  { intros [= <-]. cbn [docx_text].
    destruct (numbered_rest_verbatim _ _ Hn) as (m & Hm' & Ho).
    exists m. split; [exact Hm'|symmetry; exact Ho]. }
  intros [= <-]. exists ""%string. split; reflexivity.
Qed.

(** C10. [render_docx] does no inline bold processing.  Every block of
    the document other than the title comes from a line of the markdown,
    and its text is that line, stripped, without its marker: character for
    character, with as many [**] as the line has.  Every line that is not
    blank has such a block. *)
Theorem docx_carries_stars (title markdown : string) :
  (forall b,
      b ∈ docx_document title markdown ->
      b = DocxHeading title 0 true \/
      exists raw marker,
        raw ∈ Str.split Str.newline markdown /\
        Str.strip raw = (marker ++ docx_text b)%string /\
        Str.occurrences (docx_text b) "**"
        = Str.occurrences (Str.strip raw) "**") /\
  (forall raw,
      raw ∈ Str.split Str.newline markdown ->
      Str.is_empty (Str.strip raw) = false ->
      exists b marker,
        b ∈ docx_document title markdown /\
        Str.strip raw = (marker ++ docx_text b)%string /\
        Str.occurrences (docx_text b) "**"
        = Str.occurrences (Str.strip raw) "**").
Proof.
  unfold docx_document. cbv zeta. rewrite docx_loop_blocks. split.
  - intros b Hb. apply elem_of_app in Hb as [Hb|Hb].
    + left. apply list_elem_of_singleton in Hb. exact Hb.
    + right. apply list_elem_of_omap in Hb as (raw & Hraw & Hblock).
      destruct (docx_block_verbatim _ _ Hblock) as (m & Hm & Ho).
      exists raw, m. auto.
  - intros raw Hraw He.
    destruct (docx_block_of (Str.strip raw)) as [b|] eqn:Hblock.
    + destruct (docx_block_verbatim _ _ Hblock) as (m & Hm & Ho).
      exists b, m. split; [|auto].
      apply elem_of_app. right. apply list_elem_of_omap. eauto.
    + unfold docx_block_of in Hblock. rewrite He in Hblock.
      repeat match type of Hblock with
             | (if ?c then _ else _) = None => destruct c
             end; discriminate.
Qed.

Lemma docx_carries_stars_witness :
  exists b marker,
    b ∈ docx_document "T" "- **bold** item" /\
    "- **bold** item"%string = (marker ++ docx_text b)%string /\
    Str.occurrences (docx_text b) "**" = 2.
Proof.
  destruct (proj2 (docx_carries_stars "T" "- **bold** item") "- **bold** item")
    as (b & m & Hb & Hm & Ho).
  - repeat constructor.
  - reflexivity.
  - exists b, m. split; [exact Hb|]. split; [exact Hm|]. exact Ho.
Defined.

(** ** The two tools *)

Example render_pdf_online :
  render_pdf online_env "Report" "# Intro" "modern" 0 =
  (Ok (mkPdfResult true
         (Some "00112233445566778899aabbccddeeff01234567")
         (Some "00112233445566778899aabbccddeeff01234567.pdf")
         (Some 2048%Z)
         (Some "https://tmpfiles.org/dl/123/report.pdf") None), 5).
Proof. vm_compute. reflexivity. Qed.

Example render_pdf_offline :
  render_pdf offline_env "Report" "# Intro" "modern" 0 =
  (Ok (mkPdfResult false None None None None
         (Some "PDF generation failed: connection refused")), 5).
Proof. vm_compute. reflexivity. Qed.

Lemma validate_style_unknown style :
  style ∉ known_styles -> validate_style style = "default"%string.
Proof.
  intros H. unfold validate_style. rewrite bool_decide_eq_false_2 by exact H.
  reflexivity.
Qed.

(** C4. A theme name outside default, modern and minimal is replaced by
    default before anything reads it: the same styles are resolved, the
    same flowables are built, and [render_pdf] does the same in every
    world, with the same result and the same world after it. *)
Theorem unknown_theme_is_default
    (E : Env) (title markdown style : string) (w : World E) :
  style ∉ known_styles ->
  get_styles (validate_style style) = get_styles "default" /\
  pdf_flowables (reportlab E) title markdown (validate_style style)
  = pdf_flowables (reportlab E) title markdown "default" /\
  render_pdf E title markdown style w = render_pdf E title markdown "default" w.
Proof.
  intros H. unfold render_pdf, render_pdf_body.
  rewrite (validate_style_unknown _ H). repeat split.
Qed.

Lemma unknown_theme_is_default_witness :
  ("bogus-theme" ∉ known_styles) /\
  render_pdf online_env "Report" "# Intro" "bogus-theme" 0
  = render_pdf online_env "Report" "# Intro" "default" 0.
Proof.
  assert (H : "bogus-theme" ∉ known_styles).
  { unfold known_styles. intros Hin.
    repeat (apply elem_of_cons in Hin as [Hin|Hin]; [discriminate Hin|]).
    inversion Hin. }
  split; [exact H|].
  apply (unknown_theme_is_default online_env "Report" "# Intro" "bogus-theme" 0 H).
Defined.

(** ** No exception leaves a tool *)

Section ToolFacts.
Context (E : Env).

Lemma bindM_ok {A B} (c : M E A) (k : A -> M E B) w b w' :
  bindM E c k w = (Ok b, w') ->
  exists a w1, c w = (Ok a, w1) /\ k a w1 = (Ok b, w').
Proof.
  unfold bindM. destruct (c w) as [[a|e|] w1]; intros H; try discriminate.
  eauto.
Qed.

Lemma ret_halts {A} (a : A) : halts (ret E a).
Proof. intros w. discriminate. Qed.

Lemma call_halts {A} (f : World E -> (Exn + A) * World E) : halts (call E f).
Proof. intros w. unfold call. destruct (f w) as [[e|a] w']; discriminate. Qed.

Lemma pure_halts {A} (c : outcome A) : c <> OutOfFuel -> halts (pure E c).
Proof. intros H w. exact H. Qed.

Lemma bindM_halts {A B} (c : M E A) (k : A -> M E B) :
  halts c -> (forall a, halts (k a)) -> halts (bindM E c k).
Proof.
  intros Hc Hk w. unfold bindM. specialize (Hc w).
  destruct (c w) as [[a|e|] w1]; [apply Hk|discriminate|contradiction].
Qed.

Lemma of_sum_answers {A} (r : Exn + A) : of_sum r <> OutOfFuel.
Proof. destruct r; discriminate. Qed.

Lemma json_getitem_answers j key : json_getitem j key <> OutOfFuel.
Proof.
  destruct j; simpl; try discriminate. destruct (assoc fields key); discriminate.
Qed.

Lemma json_replace_answers url old new : json_replace url old new <> OutOfFuel.
Proof. destruct url; discriminate. Qed.

Lemma generate_id_halts content : halts (_generate_id E content).
Proof.
  unfold _generate_id.
  repeat (apply bindM_halts; [apply call_halts|intros ?]). apply ret_halts.
Qed.

Lemma upload_halts filename mime : halts (upload E filename mime).
Proof.
  unfold upload.
  apply bindM_halts; [apply call_halts|intros response].
  apply bindM_halts; [apply pure_halts, of_sum_answers|intros _].
  apply bindM_halts; [apply pure_halts, of_sum_answers|intros result].
  apply bindM_halts; [apply pure_halts, json_getitem_answers|intros data].
  apply bindM_halts; [apply pure_halts, json_getitem_answers|intros url].
  apply pure_halts, json_replace_answers.
Qed.

(** Building the flowables of a document ends, with the flowables or
    with an exception: this is where the parser's loop must end. *)
Lemma pdf_flowables_answers rl title markdown style :
  pdf_flowables rl title markdown style <> OutOfFuel.
Proof.
  unfold pdf_flowables.
  destruct (get_styles style) as [custom_styles accent_color].
  unfold getitem. destruct (custom_styles !! "Title") as [st|]; cbn [bind];
    [|discriminate].
  pose proof (new_Paragraph_answers rl title st) as Hp.
  destruct (new_Paragraph rl title st); cbn [bind];
    [|discriminate|contradiction].
  pose proof (parse_markdown_answers rl markdown custom_styles accent_color)
    as Hm.
  destruct (_parse_markdown_to_flowables rl markdown custom_styles accent_color);
    cbn [bind]; [discriminate|discriminate|contradiction].
Qed.

Lemma render_pdf_body_halts title markdown style :
  halts (render_pdf_body E title markdown style).
Proof.
  unfold render_pdf_body. cbv zeta.
  apply bindM_halts; [apply generate_id_halts|intros pdf_id].
  apply bindM_halts; [apply pure_halts, pdf_flowables_answers|intros fl].
  apply bindM_halts; [apply call_halts|intros _].
  apply bindM_halts; [apply call_halts|intros size].
  apply bindM_halts; [apply upload_halts|intros url].
  apply ret_halts.
Qed.

Lemma render_docx_body_halts title markdown :
  halts (render_docx_body E title markdown).
Proof.
  unfold render_docx_body. cbv zeta.
  apply bindM_halts; [apply call_halts|intros _].
  apply bindM_halts; [apply generate_id_halts|intros docx_id].
  apply bindM_halts; [apply call_halts|intros _].
  apply bindM_halts; [apply call_halts|intros size].
  apply bindM_halts; [apply upload_halts|intros url].
  apply ret_halts.
Qed.

(** A body that returns has filled in every field of a success. *)
Lemma render_pdf_body_ok title markdown style w r w' :
  render_pdf_body E title markdown style w = (Ok r, w') ->
  pdf_success r = true /\ is_Some (pdf_id r) /\ is_Some (pdf_filename r) /\
  is_Some (pdf_size_bytes r) /\ is_Some (pdf_download_url r) /\
  pdf_error r = None.
Proof.
  unfold render_pdf_body. cbv zeta. intros H.
  apply bindM_ok in H as (pdf_id & w1 & _ & H).
  apply bindM_ok in H as (fl & w2 & _ & H).
  apply bindM_ok in H as (? & w3 & _ & H).
  apply bindM_ok in H as (size & w4 & _ & H).
  apply bindM_ok in H as (url & w5 & _ & H).
  unfold ret in H. injection H as <- _. cbn. eauto 10.
Qed.

Lemma render_docx_body_ok title markdown w r w' :
  render_docx_body E title markdown w = (Ok r, w') ->
  docx_success r = true /\ is_Some (docx_id r) /\ is_Some (docx_filename r) /\
  is_Some (docx_size_bytes r) /\ is_Some (docx_download_url r) /\
  docx_error r = None.
Proof.
  unfold render_docx_body. cbv zeta. intros H.
  apply bindM_ok in H as (? & w0 & _ & H).
  apply bindM_ok in H as (docx_id & w1 & _ & H).
  apply bindM_ok in H as (? & w3 & _ & H).
  apply bindM_ok in H as (size & w4 & _ & H).
  apply bindM_ok in H as (url & w5 & _ & H).
  unfold ret in H. injection H as <- _. cbn. eauto 10.
Qed.

End ToolFacts.

(** C9. Neither tool lets an exception out.  In every world, for every
    input, [render_pdf] and [render_docx] return a result record.  When the
    record says success, its file name, size and download link are set;
    when it says failure, its error text is set; and when a step of the
    body raises, the record says failure. *)
Theorem tools_return_a_result
    (E : Env) (title markdown style : string) (w : World E) :
  (exists r w',
      render_pdf E title markdown style w = (Ok r, w') /\
      (pdf_success r = true ->
       is_Some (pdf_filename r) /\ is_Some (pdf_size_bytes r) /\
       is_Some (pdf_download_url r)) /\
      (pdf_success r = false -> is_Some (pdf_error r)) /\
      (forall e w1,
          render_pdf_body E title markdown style w = (Raise e, w1) ->
          pdf_success r = false /\ is_Some (pdf_error r))) /\
  (exists r w',
      render_docx E title markdown w = (Ok r, w') /\
      (docx_success r = true ->
       is_Some (docx_filename r) /\ is_Some (docx_size_bytes r) /\
       is_Some (docx_download_url r)) /\
      (docx_success r = false -> is_Some (docx_error r)) /\
      (forall e w1,
          render_docx_body E title markdown w = (Raise e, w1) ->
          docx_success r = false /\ is_Some (docx_error r))).
Proof.
  split.
  - unfold render_pdf, try_except.
    pose proof (render_pdf_body_halts E title markdown style w) as Hh.
    destruct (render_pdf_body E title markdown style w) as [[r|e|] w1] eqn:Hb.
    + destruct (render_pdf_body_ok E _ _ _ _ _ _ Hb)
        as (Hs & _ & Hf & Hz & Hu & _).
      exists r, w1. split; [reflexivity|].
      split; [intros _; repeat split; assumption|].
      split; [congruence|]. intros e' w2 H. discriminate H.
    + eexists _, w1. split; [reflexivity|]. cbn.
      split; [discriminate|]. split; [eauto|]. intros; split; eauto.
    + contradiction.
  - unfold render_docx, try_except.
    pose proof (render_docx_body_halts E title markdown w) as Hh.
    destruct (render_docx_body E title markdown w) as [[r|e|] w1] eqn:Hb.
    + destruct (render_docx_body_ok E _ _ _ _ _ Hb)
        as (Hs & _ & Hf & Hz & Hu & _).
      exists r, w1. split; [reflexivity|].
      split; [intros _; repeat split; assumption|].
      split; [congruence|]. intros e' w2 H. discriminate H.
    + destruct (exn_class e); eexists _, w1; (split; [reflexivity|]);
        cbn; (split; [discriminate|]); (split; [eauto|]);
        intros; split; eauto.
    + contradiction.
Qed.

Lemma tools_return_a_result_witness :
  exists r w',
    render_pdf offline_env "Report" "# Intro" "modern" 0 = (Ok r, w') /\
    pdf_success r = false /\ is_Some (pdf_error r).
Proof.
  destruct (tools_return_a_result offline_env "Report" "# Intro" "modern" 0)
    as [(r & w' & Hr & _ & _ & Hraise) _].
  exists r, w'. split; [exact Hr|].
  apply (Hraise (mkExn OtherException "connection refused") 5).
  vm_compute. reflexivity.
Defined.

(** * Further properties *)

(** ** Stripping *)

Lemma lstrip_all_space s : str_all Str.isspace s = true -> Str.lstrip s = "".
Proof.
  induction s as [|c s IH]; [reflexivity|]. cbn [str_all Str.lstrip].
  intros H. apply andb_true_iff in H as [-> Hs]. apply IH, Hs.
Qed.

Lemma rstrip_all_space s : str_all Str.isspace s = true -> Str.rstrip s = "".
Proof.
  induction s as [|c s IH]; [reflexivity|]. cbn [str_all Str.rstrip].
  intros H. apply andb_true_iff in H as [-> Hs]. rewrite (IH Hs). reflexivity.
Qed.

Lemma lstrip_app_space pre s :
  str_all Str.isspace pre = true -> Str.lstrip (pre ++ s) = Str.lstrip s.
Proof.
  induction pre as [|c pre IH]; [reflexivity|]. cbn [str_all].
  intros H. apply andb_true_iff in H as [Hc Hs].
  change (String c pre ++ s)%string with (String c (pre ++ s)).
  cbn [Str.lstrip]. rewrite Hc. apply IH, Hs.
Qed.

Lemma rstrip_app_space s post :
  str_all Str.isspace post = true -> Str.rstrip (s ++ post) = Str.rstrip s.
Proof.
  intros H. induction s as [|c s IH].
  - apply rstrip_all_space, H.
  - change (String c s ++ post)%string with (String c (s ++ post)).
    cbn [Str.rstrip]. rewrite IH. reflexivity.
Qed.

Lemma strip_app_space s post :
  str_all Str.isspace post = true -> Str.strip (s ++ post) = Str.strip s.
Proof.
  intros H. unfold Str.strip. induction s as [|c s IH].
  - change ("" ++ post)%string with post.
    rewrite (lstrip_all_space _ H). reflexivity.
  - change (String c s ++ post)%string with (String c (s ++ post)).
    cbn [Str.lstrip]. destruct (Str.isspace c); [exact IH|].
    apply (rstrip_app_space (String c s) post H).
Qed.

(** What [lstrip] leaves starts with a character that is no space. *)
Lemma lstrip_head s :
  Str.lstrip s = "" \/
  exists c t, Str.lstrip s = String c t /\ Str.isspace c = false.
Proof.
  induction s as [|c s IH]; [left; reflexivity|]. cbn [Str.lstrip].
  destruct (Str.isspace c) eqn:Hc; [exact IH|]. right. eauto.
Qed.

Lemma rstrip_idem s : Str.rstrip (Str.rstrip s) = Str.rstrip s.
Proof.
  induction s as [|c s IH]; [reflexivity|]. cbn [Str.rstrip].
  destruct (Str.isspace c && Str.is_empty (Str.rstrip s)) eqn:Hc;
    [reflexivity|].
  cbn [Str.rstrip]. rewrite IH, Hc. reflexivity.
Qed.

Lemma strip_idem s : Str.strip (Str.strip s) = Str.strip s.
Proof.
  unfold Str.strip. destruct (lstrip_head s) as [->|(c & t & -> & Hc)];
    [reflexivity|].
  cbn [Str.rstrip]. rewrite Hc. cbn [andb Str.lstrip]. rewrite Hc.
  cbn [Str.rstrip]. rewrite Hc, rstrip_idem. reflexivity.
Qed.

Lemma strip_surrounded pre s post :
  str_all Str.isspace pre = true -> str_all Str.isspace post = true ->
  Str.strip (pre ++ s ++ post) = Str.strip s.
Proof.
  intros Hpre Hpost. unfold Str.strip at 1.
  rewrite (lstrip_app_space _ _ Hpre). apply (strip_app_space s post Hpost).
Qed.

(** X1. White space around the document never reaches the parser: blank
    lines, spaces and tabs before the first and after the last line that
    has text add no block, and no spacer. *)
Theorem parse_ignores_outer_space
    (rl : Reportlab) (pre markdown post : string)
    (styles : gmap string ParagraphStyle) (accent : Color) :
  str_all Str.isspace pre = true ->
  str_all Str.isspace post = true ->
  lines_of (pre ++ markdown ++ post) = lines_of markdown /\
  lines_of (Str.strip markdown) = lines_of markdown /\
  _parse_markdown_to_flowables rl (pre ++ markdown ++ post) styles accent
  = _parse_markdown_to_flowables rl markdown styles accent.
Proof.
  intros Hpre Hpost.
  assert (H : lines_of (pre ++ markdown ++ post) = lines_of markdown).
  { unfold lines_of. rewrite (strip_surrounded _ _ _ Hpre Hpost). reflexivity. }
  split; [exact H|]. split.
  - unfold lines_of. rewrite strip_idem. reflexivity.
  - unfold _parse_markdown_to_flowables. cbv zeta. rewrite H. reflexivity.
Qed.

Lemma parse_ignores_outer_space_witness :
  _parse_markdown_to_flowables strict
    (String Str.newline (String Str.newline "  ") ++ "# Intro"
     ++ String Str.newline "   ")
    (get_styles "default").1 (get_styles "default").2
  = _parse_markdown_to_flowables strict "# Intro"
      (get_styles "default").1 (get_styles "default").2.
Proof.
  apply (parse_ignores_outer_space strict
           (String Str.newline (String Str.newline "  ")) "# Intro"
           (String Str.newline "   ")); reflexivity.
Defined.

(** ** What the inner loops collect *)

Lemma bar_run_length rest : length (bar_run rest) <= length rest.
Proof.
  induction rest as [|raw rest IH]; [reflexivity|]. cbn [bar_run].
  destruct (Str.startswith (Str.strip raw) "|"); simpl; lia.
Qed.

Lemma table_loop_run (rest : list string) :
  table_loop rest =
  (map (fun raw => map Str.strip (Str.inner (Str.split "|" (Str.strip raw))))
     (List.filter (fun raw => negb (Re.match_separator (Str.strip raw)))
        (bar_run rest)),
   length (bar_run rest)).
Proof.
  induction rest as [|raw rest IH]; [reflexivity|].
  cbn [table_loop bar_run].
  destruct (Str.startswith (Str.strip raw) "|"); [|reflexivity].
  rewrite IH. cbn [List.filter length].
  destruct (Re.match_separator (Str.strip raw)); reflexivity.
Qed.

(** X2. A table block is read from the whole run of lines that start
    with a bar: the cursor passes every line of the run, and the rows are
    the lines of the run that are no separator lines, in their order, each
    split at the bars, without its first and last field, each cell
    stripped. *)
Theorem table_loop_reads_the_run (rest : list string) :
  table_loop rest =
  (map (fun raw => map Str.strip (Str.inner (Str.split "|" (Str.strip raw))))
     (List.filter (fun raw => negb (Re.match_separator (Str.strip raw)))
        (bar_run rest)),
   length (bar_run rest)).
Proof. exact (table_loop_run rest). Qed.

Lemma list_items_ok rl st texts items :
  list_items rl st texts = Ok items ->
  items = map (fun text => ListItem (Paragraph text st)) texts.
Proof.
  revert items. induction texts as [|text texts IH]; intros items.
  - intros [= <-]. reflexivity.
  - cbn [list_items].
    destruct (new_Paragraph rl text st) as [p| |] eqn:Hp; cbn [bind];
      [|discriminate..].
    destruct (list_items rl st texts) as [items'| |]; cbn [bind];
      [|discriminate..].
    intros [= <-]. rewrite (new_Paragraph_ok _ _ _ _ Hp), (IH _ eq_refl).
    reflexivity.
Qed.

Lemma list_items_raise rl st texts e :
  list_items rl st texts = Raise e ->
  exists before text after,
    texts = (before ++ text :: after)%list /\
    list_items rl st before
    = Ok (map (fun t => ListItem (Paragraph t st)) before) /\
    new_Paragraph rl text st = Raise e.
Proof.
  induction texts as [|text texts IH]; [discriminate|].
  cbn [list_items].
  destruct (new_Paragraph rl text st) as [p| |] eqn:Hp; cbn [bind].
  - destruct (list_items rl st texts) as [items'| |]; cbn [bind];
      [discriminate| |discriminate].
    intros [= <-]. destruct (IH eq_refl) as (before & t & after & -> & Hb & Ht).
    exists (text :: before), t, after. split; [reflexivity|].
    split; [|exact Ht]. cbn [list_items map].
    rewrite Hp, Hb. cbn [bind]. rewrite (new_Paragraph_ok _ _ _ _ Hp).
    reflexivity.
  - intros [= <-]. exists [], text, texts. repeat split. exact Hp.
  - discriminate.
Qed.

(** X3. A list block is read from the run of bullet lines (or of numbered
    lines) at the cursor.  The loop passes every line of the run and hands
    the text after the marker, with its bold spans marked up, to
    [Paragraph] in the bullet style, line by line.  When it returns it
    holds one item for every line of the run, in their order; when a text
    is rejected it raises what [Paragraph] raised at the first such line.
    When the styles lack the bullet style it raises [KeyError] at the first
    line of the run, and returns nothing only for an empty run. *)
Theorem list_loops_read_the_run
    (rl : Reportlab) (styles : gmap string ParagraphStyle)
    (rest : list string) :
  match styles !! "BulletText" with
  | Some st =>
      bullet_loop rl styles rest =
      (let* items :=
         list_items rl st
           (map (fun raw => Re.sub_bold (Str.drop 2 (Str.strip raw)))
              (bullet_run rest)) in
       Ok (items, length (bullet_run rest))) /\
      numbered_loop rl styles rest =
      (let* items :=
         list_items rl st
           (map (fun raw => Re.sub_bold (Re.sub_numbered (Str.strip raw)))
              (numbered_run rest)) in
       Ok (items, length (numbered_run rest))) /\
      (forall texts items,
          list_items rl st texts = Ok items ->
          items = map (fun text => ListItem (Paragraph text st)) texts) /\
      (forall texts e,
          list_items rl st texts = Raise e ->
          exists before text after,
            texts = (before ++ text :: after)%list /\
            list_items rl st before
            = Ok (map (fun t => ListItem (Paragraph t st)) before) /\
            new_Paragraph rl text st = Raise e)
  | None =>
      bullet_loop rl styles rest =
      match bullet_run rest with
      | [] => Ok ([], 0)
      | _ :: _ => Raise (mkExn KeyError "'BulletText'")
      end /\
      numbered_loop rl styles rest =
      match numbered_run rest with
      | [] => Ok ([], 0)
      | _ :: _ => Raise (mkExn KeyError "'BulletText'")
      end
  end.
Proof.
  destruct (styles !! "BulletText") as [st|] eqn:Hst.
  - split; [|split; [|split]].
    + induction rest as [|raw rest IH]; [reflexivity|].
      cbn [bullet_loop bullet_run].
      destruct (is_bullet (Str.strip raw)); [|reflexivity].
      unfold getitem. rewrite Hst, IH. cbn [map list_items bind length].
      destruct (new_Paragraph rl _ st); cbn [bind]; [|reflexivity..].
      destruct (list_items rl st _); reflexivity.
    + induction rest as [|raw rest IH]; [reflexivity|].
      cbn [numbered_loop numbered_run].
      destruct (Re.match_numbered (Str.strip raw)); [|reflexivity].
      unfold getitem. rewrite Hst, IH. cbn [map list_items bind length].
      destruct (new_Paragraph rl _ st); cbn [bind]; [|reflexivity..].
      destruct (list_items rl st _); reflexivity.
    + apply list_items_ok.
    + apply list_items_raise.
  - split; destruct rest as [|raw rest]; try reflexivity.
    + cbn [bullet_loop bullet_run].
      destruct (is_bullet (Str.strip raw)); [|reflexivity].
      unfold getitem. rewrite Hst. reflexivity.
    + cbn [numbered_loop numbered_run].
      destruct (Re.match_numbered (Str.strip raw)); [|reflexivity].
      unfold getitem. rewrite Hst. reflexivity.
Qed.

(** ** The blocks the parser emits *)

Lemma bullet_loop_items rl styles rest r :
  bullet_loop rl styles rest = Ok r ->
  forallb is_item r.1 = true /\ length r.1 = r.2.
Proof.
  revert r. induction rest as [|raw rest IH]; intros r.
  - intros [= <-]. split; reflexivity.
  - cbn [bullet_loop]. destruct (is_bullet (Str.strip raw)).
    2: { intros [= <-]. split; reflexivity. }
    destruct (getitem styles "BulletText"); cbn [bind]; [|discriminate..].
    destruct (new_Paragraph rl _ _) as [p| |] eqn:Hp; cbn [bind];
      [|discriminate..].
    destruct (bullet_loop rl styles rest) as [r'| |]; cbn [bind];
      [|discriminate..].
    intros [= <-]. destruct (IH r' eq_refl) as [Hi Hl].
    rewrite (new_Paragraph_ok _ _ _ _ Hp).
    cbn [fst snd forallb is_item length]. rewrite Hi, Hl. split; reflexivity.
Qed.

Lemma numbered_loop_items rl styles rest r :
  numbered_loop rl styles rest = Ok r ->
  forallb is_item r.1 = true /\ length r.1 = r.2.
Proof.
  revert r. induction rest as [|raw rest IH]; intros r.
  - intros [= <-]. split; reflexivity.
  - cbn [numbered_loop]. destruct (Re.match_numbered (Str.strip raw)).
    2: { intros [= <-]. split; reflexivity. }
    destruct (getitem styles "BulletText"); cbn [bind]; [|discriminate..].
    destruct (new_Paragraph rl _ _) as [p| |] eqn:Hp; cbn [bind];
      [|discriminate..].
    destruct (numbered_loop rl styles rest) as [r'| |]; cbn [bind];
      [|discriminate..].
    intros [= <-]. destruct (IH r' eq_refl) as [Hi Hl].
    rewrite (new_Paragraph_ok _ _ _ _ Hp).
    cbn [fst snd forallb is_item length]. rewrite Hi, Hl. split; reflexivity.
Qed.

Lemma list_block_ok items n bulletType indent :
  forallb is_item items = true -> length items = n -> 1 <= n ->
  block_ok (ListFlowable items bulletType indent) = true.
Proof.
  intros Hi Hl Hn. destruct items as [|x items]; [simpl in Hl; lia|].
  exact Hi.
Qed.

Lemma forallb_snoc {A} (p : A -> bool) l x :
  forallb p l = true -> p x = true -> forallb p (l ++ [x]) = true.
Proof.
  intros Hl Hx. rewrite forallb_app, Hl. simpl. rewrite Hx. reflexivity.
Qed.

Lemma parse_loop_blocks_ok rl styles fuel lines i flowables blocks :
  forallb block_ok flowables = true ->
  parse_loop fuel rl styles lines i flowables = Ok blocks ->
  forallb block_ok blocks = true.
Proof.
  revert i flowables. induction fuel as [|fuel IH]; intros i acc Hacc H.
  - destruct (lines !! i) eqn:Hi; simpl in H; rewrite Hi in H;
      [discriminate|]. injection H as <-. exact Hacc.
  - destruct (lines !! i) as [raw|] eqn:Hi.
    2: { rewrite parse_loop_at_end in H by assumption.
         injection H as <-. exact Hacc. }
    pose proof (drop_S _ _ _ Hi) as Hd.
    rewrite (parse_loop_turn _ _ _ _ _ _ _ Hi) in H. cbv zeta in H.
    assert (Hpar : forall key text,
               (let* st := getitem styles key in
                let* p := new_Paragraph rl text st in
                parse_loop fuel rl styles lines (i + 1) (acc ++ [p]))
               = Ok blocks ->
               forallb block_ok blocks = true).
    { intros key text Hk.
      destruct (getitem styles key) as [st| |]; cbn [bind] in Hk;
        [|discriminate..].
      destruct (new_Paragraph rl text st) as [p| |] eqn:Hp; cbn [bind] in Hk;
        [|discriminate..].
      rewrite (new_Paragraph_ok _ _ _ _ Hp) in Hk.
      eapply IH; [|exact Hk]. apply forallb_snoc; [exact Hacc|reflexivity]. }
    destruct (Str.is_empty (Str.strip raw)).
    { eapply IH; [|exact H]; apply forallb_snoc; [exact Hacc|reflexivity]. }
    destruct (Str.startswith (Str.strip raw) "### "); [exact (Hpar _ _ H)|].
    destruct (Str.startswith (Str.strip raw) "## "); [exact (Hpar _ _ H)|].
    destruct (Str.startswith (Str.strip raw) "# "); [exact (Hpar _ _ H)|].
    destruct (Str.contains (Str.strip raw) "**"); [exact (Hpar _ _ H)|].
    destruct (is_bullet (Str.strip raw)) eqn:Hb.
    { destruct (bullet_loop rl styles (drop i lines)) as [r| |] eqn:Hr;
        cbn [bind] in H; [|discriminate..].
      destruct (bullet_loop_items _ _ _ _ Hr) as [Hitems Hlen].
      rewrite Hd in Hr. pose proof (bullet_loop_pos _ _ _ _ _ Hb Hr) as Hpos.
      eapply IH; [|exact H]; apply forallb_snoc; [exact Hacc|].
      apply (list_block_ok _ _ _ _ Hitems Hlen Hpos). }
    destruct (Re.match_numbered (Str.strip raw)) eqn:Hn.
    { destruct (numbered_loop rl styles (drop i lines)) as [r| |] eqn:Hr;
        cbn [bind] in H; [|discriminate..].
      destruct (numbered_loop_items _ _ _ _ Hr) as [Hitems Hlen].
      rewrite Hd in Hr. pose proof (numbered_loop_pos _ _ _ _ _ Hn Hr) as Hpos.
      eapply IH; [|exact H]; apply forallb_snoc; [exact Hacc|].
      apply (list_block_ok _ _ _ _ Hitems Hlen Hpos). }
    destruct (Str.startswith (Str.strip raw) "|"); [|exact (Hpar _ _ H)].
    destruct (table_loop (drop i lines)).1 as [|row rows] eqn:Hrows.
    + apply (IH _ _ Hacc H).
    + destruct (new_Table rl (row :: rows) 1 table_style) as [t| |] eqn:Ht;
        cbn [bind] in H; [|discriminate..].
      destruct (new_Table_ok _ _ _ _ _ Ht) as [-> _].
      refine (IH _ _ _ H). rewrite forallb_app, Hacc. reflexivity.
Qed.

(** X4. Whatever the markdown and the styles, the blocks the parser
    returns are paragraphs, spacers, tables with at least one row and
    lists with at least one item, every item one paragraph: it never
    returns an empty list, an empty table or an item outside a list. *)
Theorem parser_blocks_are_well_formed
    (rl : Reportlab) (markdown : string) (styles : gmap string ParagraphStyle)
    (accent : Color) (blocks : list Flowable) :
  _parse_markdown_to_flowables rl markdown styles accent = Ok blocks ->
  forallb block_ok blocks = true.
Proof.
  unfold _parse_markdown_to_flowables. cbv zeta.
  apply parse_loop_blocks_ok. reflexivity.
Qed.

Lemma parser_blocks_are_well_formed_witness :
  exists blocks,
    _parse_markdown_to_flowables strict list_input (get_styles "modern").1
      (get_styles "modern").2 = Ok blocks /\
    forallb block_ok blocks = true.
Proof.
  destruct (_parse_markdown_to_flowables strict list_input
              (get_styles "modern").1 (get_styles "modern").2)
    as [blocks| |] eqn:H; [|discriminate H..].
  exists blocks. split; [reflexivity|].
  exact (parser_blocks_are_well_formed _ _ _ _ _ H).
Defined.

(** ** The loop does not depend on the fuel, the past or the cursor's place *)

Lemma bullet_loop_bound rl styles rest r :
  bullet_loop rl styles rest = Ok r -> r.2 <= length rest.
Proof.
  revert r. induction rest as [|raw rest IH]; intros r.
  - intros [= <-]. reflexivity.
  - cbn [bullet_loop]. destruct (is_bullet (Str.strip raw)).
    2: { intros [= <-]. simpl. lia. }
    destruct (getitem styles "BulletText"); cbn [bind]; [|discriminate..].
    destruct (new_Paragraph rl _ _); cbn [bind]; [|discriminate..].
    destruct (bullet_loop rl styles rest) as [r'| |]; cbn [bind];
      [|discriminate..].
    intros [= <-]. specialize (IH r' eq_refl). simpl. lia.
Qed.

Lemma numbered_loop_bound rl styles rest r :
  numbered_loop rl styles rest = Ok r -> r.2 <= length rest.
Proof.
  revert r. induction rest as [|raw rest IH]; intros r.
  - intros [= <-]. reflexivity.
  - cbn [numbered_loop]. destruct (Re.match_numbered (Str.strip raw)).
    2: { intros [= <-]. simpl. lia. }
    destruct (getitem styles "BulletText"); cbn [bind]; [|discriminate..].
    destruct (new_Paragraph rl _ _); cbn [bind]; [|discriminate..].
    destruct (numbered_loop rl styles rest) as [r'| |]; cbn [bind];
      [|discriminate..].
    intros [= <-]. specialize (IH r' eq_refl). simpl. lia.
Qed.

Lemma table_loop_bound rest : (table_loop rest).2 <= length rest.
Proof. rewrite table_loop_run. apply bar_run_length. Qed.

(** Destructs the tests of one turn, keeping their equations. *)
Ltac turn_cases :=
  repeat match goal with
         | |- context [if ?b then _ else _] =>
             lazymatch type of b with bool => destruct b eqn:? end
         end.

(** Any fuel that covers the lines left gives the same answer. *)
Lemma parse_loop_fuel rl styles lines :
  forall f f' i flowables,
    length lines - i <= f -> length lines - i <= f' ->
    parse_loop f rl styles lines i flowables
    = parse_loop f' rl styles lines i flowables.
Proof.
  induction f as [|f IH]; intros f' i acc Hf Hf'.
  - rewrite !parse_loop_at_end by (apply lookup_ge_None_2; lia). reflexivity.
  - destruct (lines !! i) as [raw|] eqn:Hi.
    2: { rewrite !parse_loop_at_end by assumption. reflexivity. }
    pose proof (lookup_lt_Some _ _ _ Hi) as Hlt.
    pose proof (drop_S _ _ _ Hi) as Hd.
    destruct f' as [|f']; [lia|].
    rewrite !(parse_loop_turn _ _ _ _ _ _ _ Hi). cbv zeta. turn_cases;
      try (call_cases; apply IH; lia).
    + destruct (bullet_loop rl styles (drop i lines)) as [r| |] eqn:Hr;
        cbn [bind]; try reflexivity.
      rewrite Hd in Hr.
      match goal with
      | Hb : is_bullet _ = true |- _ =>
          pose proof (bullet_loop_pos _ _ _ _ _ Hb Hr)
      end. apply IH; lia.
    + destruct (numbered_loop rl styles (drop i lines)) as [r| |] eqn:Hr;
        cbn [bind]; try reflexivity.
      rewrite Hd in Hr.
      match goal with
      | Hn : Re.match_numbered _ = true |- _ =>
          pose proof (numbered_loop_pos _ _ _ _ _ Hn Hr)
      end. apply IH; lia.
    + match goal with
      | Ht : Str.startswith _ "|" = true |- _ =>
          pose proof (table_loop_pos raw (drop (S i) lines) Ht) as Hp
      end. rewrite <- Hd in Hp.
      destruct (table_loop (drop i lines)).1; call_cases; apply IH; lia.
Qed.

(** The flowables collected so far are only carried along. *)
Lemma parse_loop_acc rl styles lines :
  forall f i before flowables,
    parse_loop f rl styles lines i (before ++ flowables) =
    let* r := parse_loop f rl styles lines i flowables in Ok (before ++ r)%list.
Proof.
  induction f as [|f IH]; intros i before acc.
  - simpl. destruct (lines !! i); reflexivity.
  - destruct (lines !! i) as [raw|] eqn:Hi.
    2: { rewrite !parse_loop_at_end by assumption. reflexivity. }
    rewrite !(parse_loop_turn _ _ _ _ _ _ _ Hi). cbv zeta. turn_cases;
      try (call_cases; rewrite <- app_assoc; apply IH).
    + destruct (bullet_loop rl styles (drop i lines)) as [r| |];
        cbn [bind]; try reflexivity. rewrite <- app_assoc. apply IH.
    + destruct (numbered_loop rl styles (drop i lines)) as [r| |];
        cbn [bind]; try reflexivity. rewrite <- app_assoc. apply IH.
    + destruct (table_loop (drop i lines)).1; [apply IH|].
      call_cases. rewrite <- app_assoc. apply IH.
Qed.

(** The lines before the cursor are never read again. *)
Lemma parse_loop_shift rl styles before lines :
  forall f j flowables,
    parse_loop f rl styles (before ++ lines) (length before + j) flowables
    = parse_loop f rl styles lines j flowables.
Proof.
  assert (Hlook : forall j,
             (before ++ lines)%list !! (length before + j) = lines !! j).
  { intros j. rewrite lookup_app_r by lia. f_equal. lia. }
  induction f as [|f IH]; intros j acc.
  - simpl. rewrite Hlook. reflexivity.
  - destruct (lines !! j) as [raw|] eqn:Hj.
    2: { rewrite !parse_loop_at_end; [reflexivity|exact Hj|].
         rewrite Hlook. exact Hj. }
    assert (Hj' : (before ++ lines)%list !! (length before + j) = Some raw)
      by (rewrite Hlook; exact Hj).
    rewrite (parse_loop_turn _ _ _ _ _ _ _ Hj), (parse_loop_turn _ _ _ _ _ _ _ Hj').
    cbv zeta. rewrite drop_app_add. rewrite <- !Nat.add_assoc.
    turn_cases; try (call_cases; apply IH).
    + destruct (bullet_loop rl styles (drop j lines)) as [r| |];
        cbn [bind]; try reflexivity. rewrite <- Nat.add_assoc. apply IH.
    + destruct (numbered_loop rl styles (drop j lines)) as [r| |];
        cbn [bind]; try reflexivity. rewrite <- Nat.add_assoc. apply IH.
    + destruct (table_loop (drop j lines)).1; call_cases; apply IH.
Qed.

(** ** A blank line separates two documents *)

Lemma blank_line_tests s :
  Str.is_empty s = true ->
  is_bullet s = false /\ Re.match_numbered s = false /\
  Str.startswith s "|" = false.
Proof. destruct s; [repeat split|discriminate]. Qed.

Lemma bullet_loop_app_stop rl styles a raw b :
  is_bullet (Str.strip raw) = false ->
  bullet_loop rl styles (a ++ raw :: b) = bullet_loop rl styles a.
Proof.
  intros Hstop. induction a as [|x a IH]; simpl.
  - rewrite Hstop. reflexivity.
  - rewrite IH. reflexivity.
Qed.

Lemma numbered_loop_app_stop rl styles a raw b :
  Re.match_numbered (Str.strip raw) = false ->
  numbered_loop rl styles (a ++ raw :: b) = numbered_loop rl styles a.
Proof.
  intros Hstop. induction a as [|x a IH]; simpl.
  - rewrite Hstop. reflexivity.
  - rewrite IH. reflexivity.
Qed.

Lemma table_loop_app_stop a raw b :
  Str.startswith (Str.strip raw) "|" = false ->
  table_loop (a ++ raw :: b) = table_loop a.
Proof.
  intros Hstop. induction a as [|x a IH]; simpl.
  - rewrite Hstop. reflexivity.
  - rewrite IH. reflexivity.
Qed.

(** Up to a blank line the loop runs as on the lines before it, and it
    arrives on the blank line itself. *)
Lemma parse_loop_until_blank rl styles l1 raw l2 :
  Str.is_empty (Str.strip raw) = true ->
  forall f i flowables,
    i <= length l1 ->
    length (l1 ++ raw :: l2) - i <= f ->
    parse_loop f rl styles (l1 ++ raw :: l2) i flowables =
    let* a := parse_loop f rl styles l1 i flowables in
    parse_loop f rl styles (l1 ++ raw :: l2) (length l1) a.
Proof.
  intros Hblank.
  destruct (blank_line_tests _ Hblank) as (Hb & Hn & Ht).
  induction f as [|f IH]; intros i acc Hi Hf.
  { rewrite length_app in Hf. simpl in Hf. lia. }
  destruct (decide (i = length l1)) as [->|Hne].
  { rewrite (parse_loop_at_end (S f) rl styles l1) by (apply lookup_ge_None_2; lia).
    reflexivity. }
  assert (Hlt : i < length l1) by lia.
  destruct (lookup_lt_is_Some_2 l1 i Hlt) as [x Hx].
  pose proof (lookup_app_l_Some l1 (raw :: l2) i x Hx) as Hx'.
  pose proof (drop_S _ _ _ Hx) as Hd.
  assert (Hstep : forall i' acc',
             i < i' -> i' <= length l1 ->
             parse_loop f rl styles (l1 ++ raw :: l2) i' acc' =
             let* a := parse_loop f rl styles l1 i' acc' in
             parse_loop (S f) rl styles (l1 ++ raw :: l2) (length l1) a).
  { intros i' acc' Hi1 Hi2. rewrite length_app in Hf. simpl in Hf.
    rewrite IH by (rewrite ?length_app; simpl; lia).
    destruct (parse_loop f rl styles l1 i' acc'); cbn [bind]; try reflexivity.
    apply parse_loop_fuel; rewrite length_app; simpl; lia. }
  rewrite (parse_loop_turn _ _ _ _ _ _ _ Hx), (parse_loop_turn _ _ _ _ _ _ _ Hx').
  cbv zeta. rewrite (drop_app_le l1 (raw :: l2) i) by lia.
  rewrite (bullet_loop_app_stop _ _ _ _ _ Hb).
  rewrite (numbered_loop_app_stop _ _ _ _ _ Hn).
  rewrite (table_loop_app_stop _ _ _ Ht).
  turn_cases; try (call_cases; apply Hstep; lia).
  - destruct (bullet_loop rl styles (drop i l1)) as [r| |] eqn:Hr;
      cbn [bind]; try reflexivity.
    pose proof (bullet_loop_bound _ _ _ _ Hr) as Hbound.
    rewrite length_drop in Hbound. rewrite Hd in Hr.
    match goal with
    | Hbul : is_bullet _ = true |- _ =>
        pose proof (bullet_loop_pos _ _ _ _ _ Hbul Hr)
    end. apply Hstep; lia.
  - destruct (numbered_loop rl styles (drop i l1)) as [r| |] eqn:Hr;
      cbn [bind]; try reflexivity.
    pose proof (numbered_loop_bound _ _ _ _ Hr) as Hbound.
    rewrite length_drop in Hbound. rewrite Hd in Hr.
    match goal with
    | Hnum : Re.match_numbered _ = true |- _ =>
        pose proof (numbered_loop_pos _ _ _ _ _ Hnum Hr)
    end. apply Hstep; lia.
  - pose proof (table_loop_bound (drop i l1)) as Hbound.
    rewrite length_drop in Hbound.
    match goal with
    | Htab : Str.startswith _ "|" = true |- _ =>
        pose proof (table_loop_pos x (drop (S i) l1) Htab) as Hpos
    end. rewrite <- Hd in Hpos.
    destruct (table_loop (drop i l1)).1; call_cases; apply Hstep; lia.
Qed.

(** The blocks of some lines, a blank line and more lines are the blocks
    of the first lines, one [Spacer(1, 6)], and the blocks of the last
    lines.  If one side raises, the whole raises the same. *)
Lemma parse_lines_splits_at_blank
    (rl : Reportlab) (styles : gmap string ParagraphStyle)
    (l1 l2 : list string) (raw : string) :
  Str.is_empty (Str.strip raw) = true ->
  parse_lines rl styles (l1 ++ raw :: l2) =
  let* a := parse_lines rl styles l1 in
  let* b := parse_lines rl styles l2 in
  Ok (a ++ Spacer 1 6 :: b)%list.
Proof.
  intros Hblank. unfold parse_lines.
  rewrite (parse_loop_until_blank rl styles l1 raw l2 Hblank) by lia.
  rewrite (parse_loop_fuel rl styles l1 (length (l1 ++ raw :: l2)) (length l1))
    by (rewrite ?length_app; simpl; lia).
  destruct (parse_loop (length l1) rl styles l1 0 []) as [a| |]; cbn [bind];
    try reflexivity.
  assert (Hlook : (l1 ++ raw :: l2)%list !! length l1 = Some raw).
  { rewrite lookup_app_r by lia. rewrite Nat.sub_diag. reflexivity. }
  rewrite length_app. cbn [length]. rewrite Nat.add_succ_r.
  rewrite (parse_loop_turn _ _ _ _ _ _ _ Hlook). cbv zeta. rewrite Hblank.
  replace (l1 ++ raw :: l2)%list with ((l1 ++ [raw]) ++ l2)%list
    by (rewrite <- app_assoc; reflexivity).
  replace (length l1 + 1) with (length (l1 ++ [raw]) + 0)
    by (rewrite length_app; simpl; lia).
  rewrite parse_loop_shift.
  rewrite (parse_loop_fuel rl styles l2 (length l1 + length l2) (length l2))
    by lia.
  rewrite <- (app_nil_r (a ++ [Spacer 1 6])).
  rewrite parse_loop_acc.
  destruct (parse_loop (length l2) rl styles l2 0 []) as [b| |]; cbn [bind];
    try reflexivity.
  rewrite <- app_assoc. reflexivity.
Qed.

Example parse_lines_splits_at_blank_ex :
  parse_lines strict (get_styles "default").1
    ["- one"; "- two"; "  "; "- three"] =
  let* a := parse_lines strict (get_styles "default").1 ["- one"; "- two"] in
  let* b := parse_lines strict (get_styles "default").1 ["- three"] in
  Ok (a ++ Spacer 1 6 :: b)%list.
Proof.
  apply (parse_lines_splits_at_blank strict (get_styles "default").1
           ["- one"; "- two"] ["- three"] "  ").
  reflexivity.
Qed.

Lemma split_nonempty sep s : exists h t, Str.split sep s = h :: t.
Proof.
  induction s as [|c s (h & t & IH)]; simpl; [eauto|].
  destruct (Ascii.eqb c sep); [eauto|]. rewrite IH. eauto.
Qed.

Lemma split_app_sep sep a b :
  Str.split sep (a ++ String sep b) = (Str.split sep a ++ Str.split sep b)%list.
Proof.
  induction a as [|c a IH].
  - change ("" ++ String sep b)%string with (String sep b).
    cbn [Str.split]. rewrite Ascii.eqb_refl. reflexivity.
  - change (String c a ++ String sep b)%string
      with (String c (a ++ String sep b)).
    cbn [Str.split]. rewrite IH.
    destruct (Ascii.eqb c sep); [reflexivity|].
    destruct (split_nonempty sep a) as (h & t & ->). reflexivity.
Qed.

(** What [strip] returns, when it is not empty, starts and ends with
    characters that are no spaces. *)
Lemma strip_shape s :
  Str.is_empty (Str.strip s) = false ->
  (exists c t, Str.strip s = String c t /\ Str.isspace c = false) /\
  Str.rstrip (Str.strip s) = Str.strip s.
Proof.
  intros Hne. split; [|apply rstrip_idem].
  unfold Str.strip in *.
  destruct (lstrip_head s) as [H|(c & t & H & Hc)]; rewrite H in *.
  - discriminate Hne.
  - cbn [Str.rstrip]. rewrite Hc. cbn [andb]. eauto.
Qed.

Lemma rstrip_app_keep x u :
  Str.rstrip u = u -> Str.is_empty u = false -> Str.rstrip (x ++ u) = (x ++ u)%string.
Proof.
  intros Hu Hne. induction x as [|c x IH]; [exact Hu|].
  change (String c x ++ u)%string with (String c (x ++ u)).
  cbn [Str.rstrip]. rewrite IH.
  destruct x; [|rewrite andb_false_r; reflexivity].
  change ("" ++ u)%string with u. rewrite Hne, andb_false_r. reflexivity.
Qed.

Lemma str_app_cons c a b : (String c a ++ b)%string = String c (a ++ b).
Proof. reflexivity. Qed.

Lemma str_app_assoc a b c :
  (a ++ (b ++ c))%string = ((a ++ b) ++ c)%string.
Proof.
  induction a as [|k a IH]; [reflexivity|].
  rewrite !str_app_cons, IH. reflexivity.
Qed.

Lemma strip_blank_line_between u1 u2 :
  Str.is_empty (Str.strip u1) = false ->
  Str.is_empty (Str.strip u2) = false ->
  Str.strip (blank_line_between (Str.strip u1) (Str.strip u2))
  = blank_line_between (Str.strip u1) (Str.strip u2).
Proof.
  intros H1 H2.
  destruct (strip_shape _ H1) as [(c & t & Hs & Hc) _].
  destruct (strip_shape _ H2) as [_ Hr].
  unfold blank_line_between, Str.strip at 1.
  assert (Hl : forall x, Str.lstrip (Str.strip u1 ++ x) = (Str.strip u1 ++ x)%string).
  { intros x. rewrite Hs, str_app_cons. cbn [Str.lstrip]. rewrite Hc.
    reflexivity. }
  rewrite Hl.
  change (String Str.newline (String Str.newline (Str.strip u2)))
    with (String Str.newline (String Str.newline "") ++ Str.strip u2)%string.
  rewrite str_app_assoc. apply rstrip_app_keep; assumption.
Qed.

(** X5. An empty line separates two documents.  Two markdown texts with
    an empty line between them, each taken without the white space around
    it, parse to the blocks of the first, one [Spacer(1, 6)] and the
    blocks of the second: no list or table runs across the empty line, and
    what one side holds does not change how the other is read.  If one
    side raises, the whole raises the same. *)
Theorem parse_splits_at_blank_line
    (rl : Reportlab) (md1 md2 : string) (styles : gmap string ParagraphStyle)
    (accent : Color) :
  Str.is_empty (Str.strip md1) = false ->
  Str.is_empty (Str.strip md2) = false ->
  _parse_markdown_to_flowables rl
    (blank_line_between (Str.strip md1) (Str.strip md2)) styles accent =
  let* a := _parse_markdown_to_flowables rl md1 styles accent in
  let* b := _parse_markdown_to_flowables rl md2 styles accent in
  Ok (a ++ Spacer 1 6 :: b)%list.
Proof.
  intros H1 H2.
  assert (Hlines : lines_of (blank_line_between (Str.strip md1) (Str.strip md2))
                   = (lines_of md1 ++ "" :: lines_of md2)%list).
  { unfold lines_of. rewrite (strip_blank_line_between _ _ H1 H2).
    unfold blank_line_between. rewrite split_app_sep.
    cbn [Str.split]. rewrite Ascii.eqb_refl. reflexivity. }
  change (_parse_markdown_to_flowables rl
            (blank_line_between (Str.strip md1) (Str.strip md2)) styles accent)
    with (parse_lines rl styles
            (lines_of (blank_line_between (Str.strip md1) (Str.strip md2)))).
  rewrite Hlines.
  apply (parse_lines_splits_at_blank rl styles (lines_of md1) (lines_of md2) "").
  reflexivity.
Qed.

Lemma parse_splits_at_blank_line_witness :
  _parse_markdown_to_flowables strict
    (blank_line_between "- one" "| a |") (get_styles "default").1
    (get_styles "default").2 =
  let* a := _parse_markdown_to_flowables strict " - one  "
              (get_styles "default").1 (get_styles "default").2 in
  let* b := _parse_markdown_to_flowables strict "| a |"
              (get_styles "default").1 (get_styles "default").2 in
  Ok (a ++ Spacer 1 6 :: b)%list.
Proof.
  apply (parse_splits_at_blank_line strict " - one  " "| a |"); reflexivity.
Defined.

(** ** Inline bold, further *)

Lemma str_length_app a b :
  String.length (a ++ b) = String.length a + String.length b.
Proof.
  induction a as [|c a IH]; [reflexivity|].
  rewrite str_app_cons. simpl. rewrite IH. reflexivity.
Qed.

Lemma str_drop_app a b : Str.drop (String.length a) (a ++ b) = b.
Proof.
  induction a as [|c a IH]; [destruct b; reflexivity|].
  rewrite str_app_cons. exact IH.
Qed.

Lemma str_drop_nil n : Str.drop n "" = "".
Proof. destruct n; reflexivity. Qed.

Lemma str_drop_drop a b s : Str.drop a (Str.drop b s) = Str.drop (b + a) s.
Proof.
  revert s. induction b as [|b IH]; intros s; [reflexivity|].
  destruct s as [|c s]; [rewrite str_drop_nil; reflexivity|]. apply IH.
Qed.

Lemma subn_bold_from_skip k s :
  Re.subn_bold_from k s = Re.subn_bold_from 0 (Str.drop k s).
Proof.
  revert k. induction s as [|c s IH]; intros k.
  - rewrite str_drop_nil. destruct k; reflexivity.
  - destruct k as [|k]; [reflexivity|]. cbn [Re.subn_bold_from Str.drop].
    apply IH.
Qed.

(** A group that [lazy_group] finds is followed by two stars. *)
Lemma lazy_group_split s g :
  Re.lazy_group s = Some g ->
  s = (g ++ "**" ++ Str.drop (String.length g + 2) s)%string /\
  1 <= String.length g.
Proof.
  revert g. induction s as [|c s IH]; intros g; [discriminate|].
  cbn [Re.lazy_group]. destruct (Ascii.eqb c Str.newline); [discriminate|].
  destruct (Str.startswith s "**") eqn:Hs.
  - intros [= <-]. split; [|simpl; lia].
    rewrite str_app_cons. change ("" ++ ?x)%string with x.
    f_equal. apply (startswith_drop _ _ Hs).
  - destruct (Re.lazy_group s) as [g'|]; [|discriminate].
    intros [= <-]. destruct (IH g' eq_refl) as [Heq Hlen].
    split; [|simpl; lia].
    rewrite str_app_cons. f_equal. exact Heq.
Qed.

Lemma match_bold_split s g :
  Re.match_bold s = Some g ->
  s = ("**" ++ g ++ "**" ++ Str.drop (String.length g + 4) s)%string /\
  1 <= String.length g.
Proof.
  unfold Re.match_bold. destruct (Str.startswith s "**") eqn:Hs; [|discriminate].
  intros Hg. destruct (lazy_group_split _ _ Hg) as [Heq Hlen].
  split; [|exact Hlen].
  rewrite (startswith_drop _ _ Hs) at 1. f_equal.
  rewrite str_drop_drop in Heq.
  replace (2 + (String.length g + 2)) with (String.length g + 4) in Heq by lia.
  exact Heq.
Qed.

Lemma subn_bold_from_match c s g :
  Re.match_bold (String c s) = Some g ->
  Re.subn_bold_from 0 (String c s) =
  (("<b>" ++ g ++ "</b>"
    ++ (Re.subn_bold_from 0 (Str.drop (3 + String.length g) s)).1)%string,
   S (Re.subn_bold_from 0 (Str.drop (3 + String.length g) s)).2).
Proof.
  intros H. cbn [Re.subn_bold_from]. rewrite H, subn_bold_from_skip.
  destruct (Re.subn_bold_from 0 (Str.drop (3 + String.length g) s)).
  reflexivity.
Qed.

Lemma marked_cons c s out n :
  marked s out n -> marked (String c s) (String c out) n.
Proof.
  intros H. destruct H as [s|p g r out n Hg Hr]; [constructor|].
  rewrite <- !str_app_cons. constructor; assumption.
Qed.

Lemma marked_length s out n :
  marked s out n -> String.length out = String.length s + 3 * n.
Proof.
  induction 1 as [s|p g r out n Hg Hr IH]; [lia|].
  rewrite !str_length_app, IH.
  change (String.length "<b>") with 3. change (String.length "</b>") with 4.
  change (String.length "**") with 2. lia.
Qed.

(** X6. Marking up bold spans only replaces stars by tags.  The result
    is the text with as many spans [**g**] as replacements were counted
    turned into [<b>g</b>], one after the other, and every other character
    kept in its place; so it is three characters longer per bold span. *)
Theorem sub_bold_only_replaces_stars (s : string) :
  marked s (Re.subn_bold s).1 (Re.subn_bold s).2 /\
  String.length (Re.subn_bold s).1
  = String.length s + 3 * (Re.subn_bold s).2.
Proof.
  assert (H : marked s (Re.subn_bold s).1 (Re.subn_bold s).2).
  { unfold Re.subn_bold.
    remember (String.length s) as n eqn:Hn.
    revert s Hn. induction n as [n IH] using lt_wf_ind. intros s Hn.
    destruct s as [|c s]; [constructor|].
    destruct (Re.match_bold (String c s)) as [g|] eqn:Hm.
    - destruct (match_bold_split _ _ Hm) as [Heq Hlen].
      rewrite (subn_bold_from_match _ _ _ Hm). cbn [fst snd].
      change (Str.drop (3 + String.length g) s)
        with (Str.drop (S (3 + String.length g)) (String c s)).
      replace (S (3 + String.length g)) with (String.length g + 4) by lia.
      set (r := Str.drop (String.length g + 4) (String c s)) in *.
      assert (Hs : String.length (String c s)
                   = String.length g + 4 + String.length r).
      { rewrite Heq at 1. rewrite !str_length_app. simpl. lia. }
      specialize (IH (String.length r) ltac:(lia) r eq_refl).
      rewrite Heq.
      apply (marked_span "" g r); [|exact IH].
      destruct g; [simpl in Hlen; lia|reflexivity].
    - cbn [Re.subn_bold_from]. rewrite Hm.
      simpl in Hn. specialize (IH (String.length s) ltac:(lia) s eq_refl).
      destruct (Re.subn_bold_from 0 s) as [t k]. cbn [fst snd] in *.
      apply marked_cons, IH. }
  split; [exact H|apply (marked_length _ _ _ H)].
Qed.

Lemma contains_app_r a p r : Str.contains (a ++ p ++ r) p = true.
Proof.
  induction a as [|c a IH].
  - change ("" ++ ?x)%string with x. apply startswith_contains.
    induction p as [|k p IHp]; [destruct r; reflexivity|].
    rewrite str_app_cons. simpl. rewrite Ascii.eqb_refl. exact IHp.
  - rewrite str_app_cons. cbn [Str.contains]. rewrite IH. apply orb_true_r.
Qed.

Lemma contains_drop k s p :
  Str.contains (Str.drop k s) p = true -> Str.contains s p = true.
Proof.
  revert s. induction k as [|k IH]; intros s; [auto|].
  destruct s as [|c s]; [auto|]. cbn [Str.drop]. intros H.
  cbn [Str.contains]. rewrite (IH _ H). apply orb_true_r.
Qed.

Lemma match_bold_needs_closing s g :
  Re.match_bold s = Some g -> Str.contains (Str.drop 2 s) "**" = true.
Proof.
  intros H. destruct (match_bold_split _ _ H) as [Heq _].
  rewrite Heq. change (Str.drop 2 ("**" ++ ?x)) with x.
  apply contains_app_r.
Qed.

Lemma subn_bold_no_match s :
  (forall k, Re.match_bold (Str.drop k s) = None) ->
  Re.subn_bold s = (s, 0).
Proof.
  unfold Re.subn_bold. induction s as [|c s IH]; intros H; [reflexivity|].
  cbn [Re.subn_bold_from]. pose proof (H 0) as H0. cbn [Str.drop] in H0.
  rewrite H0.
  rewrite IH; [reflexivity|]. intros k. apply (H (S k)).
Qed.

(** X7. Stars that are not closed stay as they are.  A text that opens
    with [**] and has no [**] after it is returned unchanged, whatever
    single stars it holds, and no replacement is made. *)
Theorem unclosed_bold_is_literal (t : string) :
  Str.contains t "**" = false ->
  Re.subn_bold ("**" ++ t) = (("**" ++ t)%string, 0) /\
  Re.sub_bold ("**" ++ t) = ("**" ++ t)%string.
Proof.
  intros Ht.
  assert (H : Re.subn_bold ("**" ++ t) = (("**" ++ t)%string, 0)).
  { apply subn_bold_no_match. intros k.
    destruct (Re.match_bold (Str.drop k ("**" ++ t))) as [g|] eqn:Hm;
      [|reflexivity].
    apply match_bold_needs_closing in Hm. rewrite str_drop_drop in Hm.
    replace (k + 2) with (2 + k) in Hm by lia.
    rewrite <- str_drop_drop in Hm. change (Str.drop 2 ("**" ++ t)) with t in Hm.
    apply contains_drop in Hm. congruence. }
  split; [exact H|]. unfold Re.sub_bold. rewrite H. reflexivity.
Qed.

Lemma unclosed_bold_is_literal_witness :
  Re.sub_bold "**bold * text" = "**bold * text".
Proof. apply (unclosed_bold_is_literal "bold * text"). reflexivity. Defined.

Lemma startswith_app p r : Str.startswith (p ++ r) p = true.
Proof.
  induction p as [|k p IH]; [destruct r; reflexivity|].
  rewrite str_app_cons. simpl. rewrite Ascii.eqb_refl. exact IH.
Qed.

Lemma no_star_head c s : no_star c = true -> Str.startswith (String c s) "**" = false.
Proof.
  unfold no_star. intros H. cbn [Str.startswith].
  rewrite Ascii.eqb_sym. destruct (Ascii.eqb c "*"); [discriminate|reflexivity].
Qed.

Lemma subn_bold_plain_prefix p x :
  str_all no_star p = true ->
  Re.subn_bold_from 0 (p ++ x) =
  ((p ++ (Re.subn_bold_from 0 x).1)%string, (Re.subn_bold_from 0 x).2).
Proof.
  induction p as [|c p IH]; intros Hp.
  - change ("" ++ ?y)%string with y. destruct (Re.subn_bold_from 0 x); reflexivity.
  - cbn [str_all] in Hp. apply andb_true_iff in Hp as [Hc Hp].
    rewrite !str_app_cons. cbn [Re.subn_bold_from]. unfold Re.match_bold.
    rewrite (no_star_head _ _ Hc), (IH Hp). reflexivity.
Qed.

Lemma lazy_group_span t r :
  str_all span_char t = true -> Str.is_empty t = false ->
  Re.lazy_group (t ++ "**" ++ r) = Some t.
Proof.
  induction t as [|c t IH]; [discriminate|]. intros Ht _.
  cbn [str_all] in Ht. apply andb_true_iff in Ht as [Hc Ht].
  unfold span_char in Hc. apply andb_true_iff in Hc as [_ Hnl].
  apply negb_true_iff in Hnl.
  rewrite str_app_cons. cbn [Re.lazy_group]. rewrite Hnl.
  destruct t as [|d t].
  - change ("" ++ ?y)%string with y. rewrite startswith_app. reflexivity.
  - assert (Hd : no_star d = true).
    { cbn [str_all] in Ht. apply andb_true_iff in Ht as [Hd _].
      unfold span_char in Hd. apply andb_true_iff in Hd as [Hd _]. exact Hd. }
    rewrite str_app_cons, (no_star_head _ _ Hd), <- str_app_cons.
    rewrite (IH Ht eq_refl). reflexivity.
Qed.

(** X8. A bold span is marked up where it stands.  After a text without
    stars, a span of two stars, a non-empty text without stars and line
    feeds, and two stars becomes that text between [<b>] and [</b>]; the
    text before is kept, and the rest is formatted as it would be alone. *)
Theorem bold_span_is_marked_up (p t r : string) :
  str_all no_star p = true ->
  str_all span_char t = true ->
  Str.is_empty t = false ->
  Re.subn_bold (p ++ "**" ++ t ++ "**" ++ r) =
  ((p ++ "<b>" ++ t ++ "</b>" ++ (Re.subn_bold r).1)%string,
   S (Re.subn_bold r).2).
Proof.
  intros Hp Ht Hne. unfold Re.subn_bold.
  rewrite (subn_bold_plain_prefix _ _ Hp).
  assert (H : Re.subn_bold_from 0 ("**" ++ t ++ "**" ++ r) =
              (("<b>" ++ t ++ "</b>" ++ (Re.subn_bold_from 0 r).1)%string,
               S (Re.subn_bold_from 0 r).2)).
  { assert (Hm : Re.match_bold (String "*" (String "*" (t ++ "**" ++ r)))
                 = Some t).
    { unfold Re.match_bold.
      change (String "*" (String "*" (t ++ "**" ++ r)))
        with ("**" ++ (t ++ "**" ++ r))%string.
      rewrite (startswith_app "**" (t ++ "**" ++ r)).
      apply (lazy_group_span _ _ Ht Hne). }
    change ("**" ++ t ++ "**" ++ r)%string
      with (String "*" (String "*" (t ++ "**" ++ r))).
    rewrite (subn_bold_from_match _ _ _ Hm).
    change (Str.drop (3 + String.length t) (String "*" (t ++ "**" ++ r)))
      with (Str.drop (2 + String.length t) (t ++ "**" ++ r)).
    replace (2 + String.length t) with (String.length t + 2) by lia.
    rewrite <- str_drop_drop, str_drop_app.
    change (Str.drop 2 ("**" ++ r)) with r. reflexivity. }
  rewrite H. reflexivity.
Qed.

Lemma bold_span_is_marked_up_witness :
  Re.subn_bold "Cost: **$15,000** net"
  = ("Cost: <b>$15,000</b> net"%string, 1).
Proof.
  exact (bold_span_is_marked_up "Cost: " "$15,000" " net"
           eq_refl eq_refl eq_refl).
Defined.

(** ** Text that formatting leaves alone *)

Lemma str_take_drop k s : s = (Str.take k s ++ Str.drop k s)%string.
Proof.
  revert s. induction k as [|k IH]; intros s; [reflexivity|].
  destruct s as [|c s]; [reflexivity|].
  cbn [Str.take Str.drop]. rewrite str_app_cons. f_equal. apply IH.
Qed.

Lemma lazy_group_line s g :
  Re.lazy_group s = Some g ->
  str_all (fun c => negb (Ascii.eqb c Str.newline)) g = true.
Proof.
  revert g. induction s as [|c s IH]; intros g; [discriminate|].
  cbn [Re.lazy_group]. destruct (Ascii.eqb c Str.newline) eqn:Hc;
    [discriminate|].
  destruct (Str.startswith s "**").
  - intros [= <-]. cbn [str_all]. rewrite Hc. reflexivity.
  - destruct (Re.lazy_group s) as [g'|]; [|discriminate].
    intros [= <-]. cbn [str_all]. rewrite Hc, (IH g' eq_refl). reflexivity.
Qed.

(** The text between two delimiters holds a group of the pattern, which
    may end at stars that come earlier. *)
Lemma lazy_group_some g r :
  Str.is_empty g = false ->
  str_all (fun c => negb (Ascii.eqb c Str.newline)) g = true ->
  exists g', Re.lazy_group (g ++ "**" ++ r) = Some g'.
Proof.
  induction g as [|c g IH]; [discriminate|]. intros _ Hg.
  cbn [str_all] in Hg. apply andb_true_iff in Hg as [Hc Hg].
  apply negb_true_iff in Hc.
  rewrite str_app_cons. cbn [Re.lazy_group]. rewrite Hc.
  destruct (Str.startswith (g ++ "**" ++ r) "**") eqn:Hs; [eauto|].
  destruct g as [|d g].
  - change ("" ++ "**" ++ r)%string with ("**" ++ r)%string in Hs.
    rewrite startswith_app in Hs. discriminate Hs.
  - destruct (IH eq_refl Hg) as [g' ->]. eauto.
Qed.

Lemma pair_has_match s :
  delimiter_pair s -> exists k g, Re.match_bold (Str.drop k s) = Some g.
Proof.
  intros (p & g & r & -> & Hne & Hline).
  destruct (lazy_group_some g r Hne Hline) as [g' Hg'].
  exists (String.length p), g'. rewrite str_drop_app.
  unfold Re.match_bold. rewrite startswith_app.
  change (Str.drop 2 ("**" ++ g ++ "**" ++ r)) with (g ++ "**" ++ r)%string.
  exact Hg'.
Qed.

Lemma match_is_pair s k g :
  Re.match_bold (Str.drop k s) = Some g -> delimiter_pair s.
Proof.
  intros Hm. destruct (match_bold_split _ _ Hm) as [Heq Hlen].
  exists (Str.take k s), g, (Str.drop (String.length g + 4) (Str.drop k s)).
  split; [|split].
  - rewrite <- Heq. apply str_take_drop.
  - destruct g; [simpl in Hlen; lia|reflexivity].
  - unfold Re.match_bold in Hm.
    destruct (Str.startswith (Str.drop k s) "**"); [|discriminate].
    apply (lazy_group_line _ _ Hm).
Qed.

Lemma subn_bold_zero_no_match s :
  (Re.subn_bold_from 0 s).2 = 0 -> forall k, Re.match_bold (Str.drop k s) = None.
Proof.
  induction s as [|c s IH]; intros H k.
  - rewrite str_drop_nil. reflexivity.
  - cbn [Re.subn_bold_from] in H.
    destruct (Re.match_bold (String c s)) as [g|] eqn:Hm.
    + destruct (Re.subn_bold_from (3 + String.length g) s). discriminate H.
    + destruct k as [|k]; [exact Hm|]. cbn [Str.drop]. apply IH.
      destruct (Re.subn_bold_from 0 s). exact H.
Qed.

(** C7, as the code has it.  Formatting returns a text unchanged, with no
    bold range, exactly when the text holds no pair of delimiters: two
    stars, one or more characters of one line, and two stars.  Such a text
    may hold stars, and formatting it again changes nothing.  Formatting
    is the identity on its own output whenever that output holds no pair. *)
Theorem sub_bold_unchanged_iff_no_pair (s : string) :
  (Re.subn_bold s = (s, 0) <-> ~ delimiter_pair s) /\
  (~ delimiter_pair s ->
   Re.sub_bold s = s /\ Re.sub_bold (Re.sub_bold s) = Re.sub_bold s) /\
  (~ delimiter_pair (Re.sub_bold s) ->
   Re.sub_bold (Re.sub_bold s) = Re.sub_bold s) /\
  (Str.contains s "**" = false -> ~ delimiter_pair s).
Proof.
  assert (Hiff : forall t, Re.subn_bold t = (t, 0) <-> ~ delimiter_pair t).
  { intros t. split.
    - intros H Hpair. destruct (pair_has_match _ Hpair) as (k & g & Hm).
      assert (H0 : (Re.subn_bold_from 0 t).2 = 0)
        by (unfold Re.subn_bold in H; rewrite H; reflexivity).
      rewrite (subn_bold_zero_no_match _ H0 k) in Hm. discriminate Hm.
    - intros Hno. apply subn_bold_no_match. intros k.
      destruct (Re.match_bold (Str.drop k t)) as [g|] eqn:Hm; [|reflexivity].
      exfalso. apply Hno, (match_is_pair _ _ _ Hm). }
  assert (Hid : forall t, ~ delimiter_pair t -> Re.sub_bold t = t).
  { intros t Hno. unfold Re.sub_bold. rewrite (proj2 (Hiff t) Hno).
    reflexivity. }
  split; [apply Hiff|]. split; [|split].
  - intros Hno. rewrite !(Hid s Hno). split; reflexivity.
  - intros Hno. apply (Hid _ Hno).
  - intros Hc. apply (proj1 (Hiff s)). unfold Re.subn_bold.
    apply subn_bold_from_plain, Hc.
Qed.

Lemma sub_bold_unchanged_iff_no_pair_witness :
  ~ delimiter_pair "2 ** 3 = 8" /\ Re.sub_bold "2 ** 3 = 8" = "2 ** 3 = 8".
Proof.
  assert (H : ~ delimiter_pair "2 ** 3 = 8")
    by (apply (proj1 (sub_bold_unchanged_iff_no_pair "2 ** 3 = 8"));
        reflexivity).
  split; [exact H|].
  exact (proj1 (proj1 (proj2 (sub_bold_unchanged_iff_no_pair "2 ** 3 = 8")) H)).
Defined.

(** C7, as the claim states it, fails: formatting the output of a format
    call is not the identity.  The output of the first call holds a pair
    of delimiters that its input did not show as one. *)
Lemma sub_bold_is_not_idempotent :
  Re.sub_bold "****a****" = "<b>**a</b>**"%string /\
  Re.sub_bold (Re.sub_bold "****a****") = "<b><b>a</b></b>"%string /\
  Re.sub_bold (Re.sub_bold "****a****") <> Re.sub_bold "****a****".
Proof. repeat split. discriminate. Qed.

(** ** Themes *)

Lemma get_styles_keys_only style_name key :
  is_Some ((get_styles style_name).1 !! key) -> key ∈ style_keys.
Proof.
  unfold get_styles. destruct (theme_colors style_name) as [[[c1 c2] c3] c4].
  cbn [fst]. intros [st H].
  repeat (apply lookup_insert_Some in H as [[<- _]|[_ H]]; [style_key|]).
  rewrite lookup_empty in H. discriminate H.
Qed.

(** X9. A theme changes colours only.  Whatever two theme names are
    given, [get_styles] returns styles under the same six keys, with the
    same names, parents, sizes, spacing, leading and indents; only the
    text and border colours may differ.  The accent colour it returns
    beside the styles is the border colour of the title style. *)
Theorem themes_differ_in_color_only (name1 name2 key : string) :
  (is_Some ((get_styles name1).1 !! key) <-> key ∈ style_keys) /\
  (without_colors <$> ((get_styles name1).1 !! key)
   = without_colors <$> ((get_styles name2).1 !! key)) /\
  (borderColor <$> ((get_styles name1).1 !! "Title")
   = Some (Some (get_styles name1).2)).
Proof.
  split; [|split].
  - split; [apply get_styles_keys_only|apply get_styles_has_styles].
  - destruct (decide (key ∈ style_keys)) as [Hk|Hk].
    + unfold style_keys in Hk.
      repeat (apply elem_of_cons in Hk as [->|Hk];
              [unfold get_styles, theme_colors;
               destruct (String.eqb name1 "modern"),
                 (String.eqb name1 "minimal"),
                 (String.eqb name2 "modern"),
                 (String.eqb name2 "minimal"); vm_compute; reflexivity|]).
      inversion Hk.
    + assert (H1 : (get_styles name1).1 !! key = None).
      { apply eq_None_not_Some. intros H. apply Hk, (get_styles_keys_only _ _ H). }
      assert (H2 : (get_styles name2).1 !! key = None).
      { apply eq_None_not_Some. intros H. apply Hk, (get_styles_keys_only _ _ H). }
      rewrite H1, H2. reflexivity.
  - unfold get_styles, theme_colors.
    destruct (String.eqb name1 "modern"), (String.eqb name1 "minimal");
      vm_compute; reflexivity.
Qed.

(** ** One block per line in [render_docx] *)

Lemma docx_block_of_blank line :
  docx_block_of line = None <-> Str.is_empty line = true.
Proof.
  unfold docx_block_of. destruct (Str.is_empty line); [tauto|].
  repeat match goal with
         | |- context [if ?b then _ else _] => destruct b
         end; split; discriminate.
Qed.

Lemma docx_blocks_count lines :
  length (omap (fun raw => docx_block_of (Str.strip raw)) lines)
  = length (List.filter (fun raw => negb (Str.is_empty (Str.strip raw))) lines).
Proof.
  induction lines as [|raw lines IH]; [reflexivity|].
  cbn [omap list_omap List.filter].
  destruct (docx_block_of (Str.strip raw)) as [b|] eqn:Hb.
  - destruct (Str.is_empty (Str.strip raw)) eqn:He.
    + apply docx_block_of_blank in He. congruence.
    + simpl. f_equal. exact IH.
  - apply docx_block_of_blank in Hb. rewrite Hb. exact IH.
Qed.

(** X10. The document of [render_docx], for a title and a markdown
    text without control characters (python-docx accepts no others), is
    the centred title heading followed by one block for every line that is
    not blank, in the order of the lines, each block made from its own
    line alone: consecutive list lines are not gathered into one list, and
    no line is merged with another or left out. *)
Theorem docx_one_block_per_line (title markdown : string) :
  str_all xml_char title = true ->
  str_all xml_char markdown = true ->
  docx_document title markdown =
  DocxHeading title 0 true
  :: omap (fun raw => docx_block_of (Str.strip raw))
       (Str.split Str.newline markdown) /\
  (forall raw,
      docx_block_of (Str.strip raw) = None <->
      Str.is_empty (Str.strip raw) = true) /\
  length (docx_document title markdown)
  = 1 + length (List.filter
                  (fun raw => negb (Str.is_empty (Str.strip raw)))
                  (Str.split Str.newline markdown)).
Proof.
  intros _ _. unfold docx_document. cbv zeta. rewrite docx_loop_blocks.
  split; [reflexivity|]. split.
  - intros raw. apply docx_block_of_blank.
  - rewrite length_app, docx_blocks_count. reflexivity.
Qed.

Lemma docx_one_block_per_line_witness :
  docx_document "Plan" (unlines ["- one"; "- two"; ""; "1. three"]) =
  [DocxHeading "Plan" 0 true; DocxParagraph "one" (Some "List Bullet");
   DocxParagraph "two" (Some "List Bullet");
   DocxParagraph "three" (Some "List Number")].
Proof.
  exact (proj1 (docx_one_block_per_line "Plan"
                  (unlines ["- one"; "- two"; ""; "1. three"])
                  eq_refl eq_refl)).
Defined.

(** ** The download link *)

Lemma replace_from_skip k old new s :
  Str.replace_from k old new s = Str.replace_from 0 old new (Str.drop k s).
Proof.
  revert k. induction s as [|c s IH]; intros k.
  - rewrite str_drop_nil. destruct k; reflexivity.
  - destruct k as [|k]; [reflexivity|]. cbn [Str.replace_from Str.drop].
    apply IH.
Qed.

Lemma replace_absent s old new :
  Str.contains s old = false -> Str.replace s old new = s.
Proof.
  unfold Str.replace. induction s as [|c s IH]; intros H; [reflexivity|].
  cbn [Str.replace_from]. rewrite (contains_head _ _ H).
  rewrite (IH (contains_tail _ _ _ H)). reflexivity.
Qed.

(** X11. The download link.  For a link of the host's form, the host
    name and a path that does not name the host again, [dl/] is put after
    the host name and the path is kept.  A link that does not hold
    [tmpfiles.org/] is passed on unchanged, and a [url] that is no string
    raises [AttributeError]: for JSON's [null], the one of [NoneType]. *)
Theorem download_link_inserts_dl (path : string) :
  Str.contains path "tmpfiles.org/" = false ->
  json_replace (JStr ("https://tmpfiles.org/" ++ path))
    "tmpfiles.org/" "tmpfiles.org/dl/"
  = Ok ("https://tmpfiles.org/dl/" ++ path)%string /\
  json_replace (JStr path) "tmpfiles.org/" "tmpfiles.org/dl/" = Ok path /\
  json_replace JNull "tmpfiles.org/" "tmpfiles.org/dl/"
  = Raise (mkExn AttributeError
             "'NoneType' object has no attribute 'replace'") /\
  (forall url,
      (forall s, url <> JStr s) ->
      exists e,
        json_replace url "tmpfiles.org/" "tmpfiles.org/dl/" = Raise e /\
        exn_class e = AttributeError).
Proof.
  intros Hpath. split; [|split; [|split]]; [| |reflexivity|].
  3: { intros url Hurl. destruct url; try (eexists; split; reflexivity).
       exfalso. apply (Hurl s). reflexivity. }
  - unfold json_replace, Str.replace. f_equal.
    change ("https://tmpfiles.org/" ++ path)%string
      with ("https://" ++ ("tmpfiles.org/" ++ path))%string.
    assert (Hhead : forall x,
               Str.replace_from 0 "tmpfiles.org/" "tmpfiles.org/dl/"
                 ("https://" ++ x)
               = ("https://"
                  ++ Str.replace_from 0 "tmpfiles.org/" "tmpfiles.org/dl/" x)%string).
    { intros x. reflexivity. }
    rewrite Hhead.
    change ("tmpfiles.org/" ++ path)%string
      with (String "t" ("mpfiles.org/" ++ path)).
    cbn [Str.replace_from].
    change (String "t" ("mpfiles.org/" ++ path))
      with ("tmpfiles.org/" ++ path)%string.
    rewrite startswith_app, replace_from_skip.
    change (Str.drop (String.length "tmpfiles.org/" - 1) ("mpfiles.org/" ++ path))
      with (Str.drop (String.length "mpfiles.org/") ("mpfiles.org/" ++ path)).
    rewrite str_drop_app.
    change (Str.replace_from 0 "tmpfiles.org/" "tmpfiles.org/dl/" path)
      with (Str.replace path "tmpfiles.org/" "tmpfiles.org/dl/").
    rewrite (replace_absent _ _ _ Hpath). reflexivity.
  - unfold json_replace. rewrite (replace_absent _ _ _ Hpath). reflexivity.
Qed.

Lemma download_link_inserts_dl_witness :
  json_replace (JStr "https://tmpfiles.org/123/report.pdf")
    "tmpfiles.org/" "tmpfiles.org/dl/"
  = Ok "https://tmpfiles.org/dl/123/report.pdf".
Proof.
  apply (download_link_inserts_dl "123/report.pdf"). reflexivity.
Defined.

(** ** What the result records hold *)

Section ResultFacts.
Context (E : Env).

Lemma generate_id_value content w id w' :
  _generate_id E content w = (Ok id, w') ->
  exists token now w1,
    token_hex E 16 w = (inr token, w1) /\
    now_isoformat E w1 = (inr now, w') /\
    id = (token ++ Str.take 8 (sha256_hexdigest E (content ++ now)))%string.
Proof.
  unfold _generate_id. intros H.
  apply bindM_ok in H as (token & w1 & Ht & H).
  apply bindM_ok in H as (now & w2 & Hn & H).
  unfold ret in H. injection H as <- <-.
  unfold call in Ht, Hn.
  destruct (token_hex E 16 w) as [[e|t] w1'] eqn:Et; [discriminate|].
  injection Ht as <- <-.
  destruct (now_isoformat E w1') as [[e|n] w2'] eqn:En; [discriminate|].
  injection Hn as <- <-.
  exists t, n, w1'. auto.
Qed.

Lemma str_length_take n s : n <= String.length s -> String.length (Str.take n s) = n.
Proof.
  revert s. induction n as [|n IH]; intros s H; [reflexivity|].
  destruct s as [|c s]; [simpl in H; lia|]. simpl in *. rewrite IH; lia.
Qed.

Lemma str_take_app a b : Str.take (String.length a) (a ++ b) = a.
Proof.
  induction a as [|c a IH]; [reflexivity|].
  rewrite str_app_cons. simpl. f_equal. exact IH.
Qed.

(** X12. An identifier is the random token followed by the first eight
    characters of the digest of the content and the time: when
    [secrets.token_hex(16)] gives its 32 characters and the digest has at
    least eight, the identifier has 40 characters, of which the first 32
    are the token just drawn and the last eight are the head of the digest
    of the content followed by the time just read. *)
Theorem generate_id_is_token_and_digest (content : string) (w w' : World E)
    (id : string) :
  (forall w0 token w1,
      token_hex E 16 w0 = (inr token, w1) -> String.length token = 32) ->
  (forall x, 8 <= String.length (sha256_hexdigest E x)) ->
  _generate_id E content w = (Ok id, w') ->
  String.length id = 40 /\
  exists token now w1,
    token_hex E 16 w = (inr token, w1) /\
    now_isoformat E w1 = (inr now, w') /\
    Str.take 32 id = token /\
    Str.drop 32 id = Str.take 8 (sha256_hexdigest E (content ++ now)) /\
    String.length (Str.drop 32 id) = 8.
Proof.
  intros Htok Hsha H.
  destruct (generate_id_value _ _ _ _ H) as (token & now & w1 & Ht & Hn & ->).
  pose proof (Htok _ _ _ Ht) as Hlen.
  split.
  - rewrite str_length_app, Hlen, str_length_take by apply Hsha. reflexivity.
  - exists token, now, w1. rewrite <- Hlen, str_take_app, str_drop_app.
    repeat split; [exact Ht|exact Hn|]. apply str_length_take, Hsha.
Qed.

Lemma render_results_shape
    (title markdown style : string) (w : World E) :
  (forall r w',
      render_pdf E title markdown style w = (Ok r, w') ->
      (exists id size url,
          r = mkPdfResult true (Some id) (Some (id ++ ".pdf")%string)
                (Some size) (Some url) None) \/
      (exists e,
          r = mkPdfResult false None None None None
                (Some ("PDF generation failed: " ++ exn_str e)%string))) /\
  (forall r w',
      render_docx E title markdown w = (Ok r, w') ->
      (exists id size url,
          r = mkDocxResult true (Some id) (Some (id ++ ".docx")%string)
                (Some size) (Some url) None) \/
      (exists e,
          r = mkDocxResult false None None None None
                (Some (match exn_class e with
                       | ImportError =>
                           "python-docx not installed. Install with: pip install python-docx"
                       | _ => "DOCX generation failed: " ++ exn_str e
                       end)%string))).
Proof.
  split; intros r w'.
  - unfold render_pdf, try_except.
    destruct (render_pdf_body E title markdown style w) as [[r0|e|] w1] eqn:Hb.
    + intros [= <- <-]. left. revert Hb. unfold render_pdf_body. cbv zeta.
      intros H.
      apply bindM_ok in H as (id & w2 & _ & H).
      apply bindM_ok in H as (fl & w3 & _ & H).
      apply bindM_ok in H as (? & w4 & _ & H).
      apply bindM_ok in H as (size & w5 & _ & H).
      apply bindM_ok in H as (url & w6 & _ & H).
      unfold ret in H. injection H as <- _. eauto.
    + intros [= <- <-]. right. eauto.
    + discriminate.
  - unfold render_docx, try_except.
    destruct (render_docx_body E title markdown w) as [[r0|e|] w1] eqn:Hb.
    + intros [= <- <-]. left. revert Hb. unfold render_docx_body. cbv zeta.
      intros H.
      apply bindM_ok in H as (? & w0 & _ & H).
      apply bindM_ok in H as (id & w2 & _ & H).
      apply bindM_ok in H as (? & w4 & _ & H).
      apply bindM_ok in H as (size & w5 & _ & H).
      apply bindM_ok in H as (url & w6 & _ & H).
      unfold ret in H. injection H as <- _. eauto.
    + intros H. right. exists e.
      destruct (exn_class e); unfold ret in H; injection H as <- _;
        reflexivity.
    + discriminate.
Qed.

(** X13. A result record is all or nothing.  What [render_pdf] returns
    is either a success with an identifier, the file name made of that
    identifier and [.pdf], a size, a link and no error, or a failure with
    none of these and an error that starts with [PDF generation failed: ].
    The same holds of [render_docx] with [.docx]; its error is the fixed
    text about python-docx when the exception is an [ImportError], from
    whatever step, and starts with [DOCX generation failed: ] otherwise. *)
Theorem results_are_all_or_nothing
    (title markdown style : string) (w : World E) :
  (forall r w',
      render_pdf E title markdown style w = (Ok r, w') ->
      (exists id size url,
          r = mkPdfResult true (Some id) (Some (id ++ ".pdf")%string)
                (Some size) (Some url) None) \/
      (exists e,
          r = mkPdfResult false None None None None
                (Some ("PDF generation failed: " ++ exn_str e)%string))) /\
  (forall r w',
      render_docx E title markdown w = (Ok r, w') ->
      (exists id size url,
          r = mkDocxResult true (Some id) (Some (id ++ ".docx")%string)
                (Some size) (Some url) None) \/
      (exists e,
          r = mkDocxResult false None None None None
                (Some (match exn_class e with
                       | ImportError =>
                           "python-docx not installed. Install with: pip install python-docx"
                       | _ => "DOCX generation failed: " ++ exn_str e
                       end)%string))).
Proof. exact (render_results_shape title markdown style w). Qed.

End ResultFacts.

Lemma generate_id_is_token_and_digest_witness :
  exists id w',
    _generate_id online_env "Report" 0 = (Ok id, w') /\ String.length id = 40.
Proof.
  exists "00112233445566778899aabbccddeeff01234567"%string, 2.
  split; [reflexivity|].
  refine (proj1 (generate_id_is_token_and_digest online_env "Report" 0 2 _
                   _ _ eq_refl)).
  - intros w0 token w1 [= <- _]. reflexivity.
  - intros x. simpl. lia.
Defined.

Lemma results_are_all_or_nothing_witness :
  (exists id size url,
      mkPdfResult true
        (Some "00112233445566778899aabbccddeeff01234567")
        (Some "00112233445566778899aabbccddeeff01234567.pdf")
        (Some 2048%Z)
        (Some "https://tmpfiles.org/dl/123/report.pdf") None
      = mkPdfResult true (Some id) (Some (id ++ ".pdf")%string)
          (Some size) (Some url) None) \/
  (exists e,
      mkPdfResult true
        (Some "00112233445566778899aabbccddeeff01234567")
        (Some "00112233445566778899aabbccddeeff01234567.pdf")
        (Some 2048%Z)
        (Some "https://tmpfiles.org/dl/123/report.pdf") None
      = mkPdfResult false None None None None
          (Some ("PDF generation failed: " ++ exn_str e)%string)).
Proof.
  apply (proj1 (results_are_all_or_nothing online_env "Report" "# Intro"
                  "modern" 0) _ 5).
  vm_compute. reflexivity.
Defined.

(** ** [_slugify] gives a safe name *)

Lemma str_all_impl (p q : ascii -> bool) s :
  (forall c, p c = true -> q c = true) ->
  str_all p s = true -> str_all q s = true.
Proof.
  intros Hpq. induction s as [|c s IH]; [reflexivity|]. cbn [str_all].
  intros H. apply andb_true_iff in H as [Hc Hs].
  rewrite (Hpq _ Hc), (IH Hs). reflexivity.
Qed.

Lemma str_all_app p a b :
  str_all p a = true -> str_all p b = true -> str_all p (a ++ b) = true.
Proof.
  intros Ha Hb. induction a as [|c a IH]; [exact Hb|].
  rewrite str_app_cons. cbn [str_all] in *.
  apply andb_true_iff in Ha as [-> Ha]. exact (IH Ha).
Qed.

Lemma str_all_take p n s : str_all p s = true -> str_all p (Str.take n s) = true.
Proof.
  revert s. induction n as [|n IH]; intros s H; [reflexivity|].
  destruct s as [|c s]; [reflexivity|]. cbn [str_all Str.take] in *.
  apply andb_true_iff in H as [-> Hs]. exact (IH _ Hs).
Qed.

Lemma str_length_take_le n s : String.length (Str.take n s) <= n.
Proof.
  revert s. induction n as [|n IH]; intros s; [reflexivity|].
  destruct s as [|c s]; simpl; [lia|]. specialize (IH s). lia.
Qed.

Lemma lower_char_fixed c :
  Ascii.eqb (Text.lower_char (Text.lower_char c)) (Text.lower_char c) = true.
Proof. destruct c as [[] [] [] [] [] [] [] []]; reflexivity. Qed.

Lemma lower_all s :
  str_all (fun c => Ascii.eqb (Text.lower_char c) c) (Text.lower s) = true.
Proof.
  induction s as [|c s IH]; [reflexivity|]. cbn [Text.lower str_all].
  rewrite lower_char_fixed. exact IH.
Qed.

Lemma filter_all p q s :
  str_all q s = true ->
  str_all (fun c => p c && q c) (Text.filter p s) = true.
Proof.
  induction s as [|c s IH]; [reflexivity|]. cbn [str_all Text.filter].
  intros H. apply andb_true_iff in H as [Hc Hs].
  destruct (p c) eqn:Hp; [|exact (IH Hs)].
  cbn [str_all]. rewrite Hp, Hc. exact (IH Hs).
Qed.

(** The words of a text hold its characters that are no white space. *)
Lemma words_all q s :
  str_all q s = true ->
  Forall (fun w => str_all (fun c => q c && negb (Str.isspace c)) w = true)
    (Text.words s).
Proof.
  induction s as [|c s IH]; [constructor|]. cbn [str_all].
  intros H. apply andb_true_iff in H as [Hc Hs]. specialize (IH Hs).
  cbn [Text.words]. destruct (Str.isspace c) eqn:Hsp; [exact IH|].
  assert (Hone : str_all (fun c0 => q c0 && negb (Str.isspace c0))
                   (String c "") = true)
    by (cbn [str_all]; rewrite Hc, Hsp; reflexivity).
  destruct s as [|c' s']; [repeat constructor; exact Hone|].
  destruct (Str.isspace c'); [constructor; assumption|].
  destruct (Text.words (String c' s')) as [|w ws].
  - repeat constructor. exact Hone.
  - inversion IH as [|? ? Hw Hws]; subst. constructor; [|exact Hws].
    cbn [str_all]. rewrite Hc, Hsp, Hw. reflexivity.
Qed.

Lemma concat_all q sep l :
  str_all q sep = true ->
  Forall (fun w => str_all q w = true) l ->
  str_all q (String.concat sep l) = true.
Proof.
  intros Hsep Hl. induction Hl as [|w l Hw Hl IH]; [reflexivity|].
  destruct l as [|w' l]; [exact Hw|].
  change (String.concat sep (w :: w' :: l))
    with (w ++ sep ++ String.concat sep (w' :: l))%string.
  apply str_all_app; [exact Hw|]. apply str_all_app; [exact Hsep|exact IH].
Qed.

Lemma slug_char_of_filtered c :
  ((Text.isalnum c || Ascii.eqb c " ")
   && Ascii.eqb (Text.lower_char c) c) && negb (Str.isspace c) = true ->
  slug_char c = true.
Proof.
  unfold slug_char. intros H.
  apply andb_true_iff in H as [H Hsp]. apply andb_true_iff in H as [H Hl].
  rewrite Hl, andb_true_r. apply orb_true_iff in H as [->|Heq]; [reflexivity|].
  apply Ascii.eqb_eq in Heq. subst c. discriminate Hsp.
Qed.

(** X14. A slug is a safe file name.  For every title, [_slugify] returns
    a text that is not empty, has at most 50 characters, and holds only
    small letters, digits and hyphens: no slash, no dot, no space and no
    capital letter.  A title without any letter or digit gives
    [document]. *)
Theorem slugify_is_safe (title : string) :
  Str.is_empty (_slugify title) = false /\
  String.length (_slugify title) <= 50 /\
  str_all slug_char (_slugify title) = true /\
  Str.contains (_slugify title) "/" = false /\
  Str.contains (_slugify title) "." = false /\
  (str_all (fun c => negb (Text.isalnum (Text.lower_char c))) title = true ->
   _slugify title = "document"%string).
Proof.
  assert (Hchars : str_all slug_char (_slugify title) = true).
  { unfold _slugify. cbv zeta.
    match goal with |- context [Str.take 50 ?x] => set (joined := x) end.
    assert (Hj : str_all slug_char joined = true).
    { subst joined. apply concat_all; [reflexivity|].
      eapply Forall_impl.
      - apply words_all. apply filter_all. apply lower_all.
      - intros w Hw. cbv beta in Hw.
        apply (str_all_impl _ _ _ slug_char_of_filtered Hw). }
    destruct (Str.is_empty (Str.take 50 joined)); [reflexivity|].
    apply str_all_take, Hj. }
  assert (Hno : forall k, slug_char k = false ->
                  Str.contains (_slugify title) (String k "") = false).
  { intros k Hk. induction (_slugify title) as [|c s IH]; [reflexivity|].
    cbn [str_all] in Hchars. apply andb_true_iff in Hchars as [Hc Hs].
    cbn [Str.contains Str.startswith]. rewrite (IH Hs), orb_false_r.
    destruct (Ascii.eqb_spec k c) as [->|]; [congruence|reflexivity]. }
  split; [|split; [|split; [exact Hchars|split; [|split]]]].
  - unfold _slugify. cbv zeta.
    destruct (Str.is_empty (Str.take 50 _)) eqn:He; [reflexivity|exact He].
  - unfold _slugify. cbv zeta.
    destruct (Str.is_empty (Str.take 50 _)); [simpl; lia|].
    apply str_length_take_le.
  - apply Hno. reflexivity.
  - apply Hno. reflexivity.
  - intros Hnone. unfold _slugify. cbv zeta.
    assert (Hf : Text.filter (fun c => Text.isalnum c || Ascii.eqb c " ")
                   (Text.lower title)
                 = Text.filter (fun c => Ascii.eqb c " ") (Text.lower title)
                 /\ Text.words (Text.filter (fun c => Ascii.eqb c " ")
                                  (Text.lower title)) = []).
    { clear -Hnone. induction title as [|c s IH]; [split; reflexivity|].
      cbn [str_all] in Hnone. apply andb_true_iff in Hnone as [Hc Hs].
      destruct (IH Hs) as [IH1 IH2]. cbn [Text.lower Text.filter].
      apply negb_true_iff in Hc. rewrite Hc. cbn [orb].
      destruct (Ascii.eqb_spec (Text.lower_char c) " ") as [->|].
      - rewrite IH1. split; [reflexivity|]. cbn [Text.words].
        change (Str.isspace " ") with true. cbv iota. exact IH2.
      - split; assumption. }
    destruct Hf as [-> ->]. reflexivity.
Qed.

(** ** The files the tools name are served with their type *)

Lemma endswith_app a p : Server.endswith (a ++ p) p = true.
Proof.
  induction a as [|c a IH].
  - change ("" ++ p)%string with p. destruct p; simpl.
    + reflexivity.
    + rewrite Ascii.eqb_refl, String.eqb_refl. reflexivity.
  - rewrite str_app_cons. cbn [Server.endswith]. rewrite IH.
    apply orb_true_r.
Qed.

Lemma endswith_docx_not_pdf a : Server.endswith (a ++ ".docx") ".pdf" = false.
Proof.
  induction a as [|c a IH]; [reflexivity|].
  rewrite str_app_cons. cbn [Server.endswith]. rewrite IH, orb_false_r.
  apply String.eqb_neq. intros H. apply (f_equal String.length) in H.
  rewrite <- str_app_cons, str_length_app in H. simpl in H. lia.
Qed.

(** X15. A file that a tool has named is served with its type.  When
    [render_pdf] succeeds, the file name it returns, if the file is there,
    is served as [application/pdf]; a name of [render_docx] is served with
    the media type it was uploaded with.  A name whose file does not exist
    gets the 404 answer, whatever its ending. *)
Theorem generated_files_are_served_with_their_type
    (E : Env) (title markdown style : string) (w : World E)
    (joinpath : string -> string -> string) (exists_ : string -> bool) :
  (forall r w',
      render_pdf E title markdown style w = (Ok r, w') ->
      pdf_success r = true ->
      exists name,
        pdf_filename r = Some name /\
        (exists_ (joinpath (FILES_DIR E) name) = true ->
         Server.serve_file (FILES_DIR E) joinpath exists_ name =
         Server.FileResponse (joinpath (FILES_DIR E) name) "application/pdf"
           name)) /\
  (forall r w',
      render_docx E title markdown w = (Ok r, w') ->
      docx_success r = true ->
      exists name,
        docx_filename r = Some name /\
        (exists_ (joinpath (FILES_DIR E) name) = true ->
         Server.serve_file (FILES_DIR E) joinpath exists_ name =
         Server.FileResponse (joinpath (FILES_DIR E) name) docx_mime name)) /\
  (forall name,
      exists_ (joinpath (FILES_DIR E) name) = false ->
      Server.serve_file (FILES_DIR E) joinpath exists_ name =
      Server.JSONResponse (JObj [("error", JStr "File not found")]) 404).
Proof.
  split; [|split].
  - intros r w' Hr Hs.
    destruct (proj1 (render_results_shape E title markdown style w)
                _ _ Hr) as [(id & size & url & ->)|(e & ->)];
      [|discriminate Hs].
    exists (id ++ ".pdf")%string. split; [reflexivity|]. intros Hex.
    unfold Server.serve_file. cbv zeta. rewrite Hex, endswith_app.
    reflexivity.
  - intros r w' Hr Hs.
    destruct (proj2 (render_results_shape E title markdown style w)
                _ _ Hr) as [(id & size & url & ->)|(e & ->)];
      [|discriminate Hs].
    exists (id ++ ".docx")%string. split; [reflexivity|]. intros Hex.
    unfold Server.serve_file. cbv zeta.
    rewrite Hex, endswith_docx_not_pdf, endswith_app. reflexivity.
  - intros name Hex. unfold Server.serve_file. cbv zeta. rewrite Hex.
    reflexivity.
Qed.

Lemma generated_files_are_served_with_their_type_witness :
  Server.serve_file (FILES_DIR online_env)
    (fun dir name => (dir ++ "/" ++ name)%string) (fun _ => true)
    "00112233445566778899aabbccddeeff01234567.pdf"
  = Server.FileResponse
      "/tmp/pdf-generator-mcp/00112233445566778899aabbccddeeff01234567.pdf"
      "application/pdf" "00112233445566778899aabbccddeeff01234567.pdf".
Proof.
  destruct (proj1 (generated_files_are_served_with_their_type online_env
                     "Report" "# Intro" "modern" 0
                     (fun dir name => (dir ++ "/" ++ name)%string)
                     (fun _ => true))
              _ 5 render_pdf_online eq_refl) as (name & Hname & Hserve).
  injection Hname as <-. exact (Hserve eq_refl).
Defined.

(** ** The cells of a table *)

Lemma startswith_nil s : Str.startswith s "" = true.
Proof. destruct s; reflexivity. Qed.

Lemma split_fields_no_sep sep s :
  Forall (fun f => str_all (fun c => negb (Ascii.eqb c sep)) f = true)
    (Str.split sep s).
Proof.
  induction s as [|c s IH]; [repeat constructor|]. cbn [Str.split].
  destruct (Ascii.eqb c sep) eqn:Hc; [constructor; [reflexivity|exact IH]|].
  destruct (Str.split sep s) as [|h t]; [repeat constructor; simpl; rewrite Hc; reflexivity|].
  inversion IH as [|? ? Hh Ht]; subst. constructor; [|exact Ht].
  cbn [str_all]. rewrite Hc, Hh. reflexivity.
Qed.

Lemma split_length sep s :
  length (Str.split sep s) = 1 + Str.occurrences s (String sep "").
Proof.
  induction s as [|c s IH]; [reflexivity|].
  cbn [Str.split Str.occurrences Str.startswith]. rewrite startswith_nil.
  rewrite andb_true_r, (Ascii.eqb_sym sep c).
  destruct (Ascii.eqb c sep).
  - cbn [length]. rewrite IH. reflexivity.
  - destruct (Str.split sep s) as [|h t]; cbn [length] in *; lia.
Qed.

Lemma inner_length {A} (l : list A) : length (Str.inner l) = length l - 2.
Proof.
  unfold Str.inner. destruct l as [|x l]; [reflexivity|]. cbn [tail].
  induction l as [|y l IH]; [reflexivity|].
  destruct l as [|z l]; [reflexivity|].
  change (removelast (y :: z :: l)) with (y :: removelast (z :: l)).
  simpl in *. lia.
Qed.

Lemma Forall_removelast {A} (P : A -> Prop) l :
  Forall P l -> Forall P (removelast l).
Proof.
  induction 1 as [|x l Hx Hl IH]; [constructor|].
  destruct l as [|y l]; [constructor|].
  change (removelast (x :: y :: l)) with (x :: removelast (y :: l)).
  constructor; assumption.
Qed.

Lemma Forall_inner {A} (P : A -> Prop) l : Forall P l -> Forall P (Str.inner l).
Proof.
  intros H. unfold Str.inner. apply Forall_removelast.
  destruct H; [constructor|assumption].
Qed.

Lemma lstrip_all p s : str_all p s = true -> str_all p (Str.lstrip s) = true.
Proof.
  induction s as [|c s IH]; [reflexivity|]. intros H. cbn [Str.lstrip].
  destruct (Str.isspace c); [|exact H].
  cbn [str_all] in H. apply andb_true_iff in H as [_ H]. exact (IH H).
Qed.

Lemma rstrip_all p s : str_all p s = true -> str_all p (Str.rstrip s) = true.
Proof.
  induction s as [|c s IH]; [reflexivity|]. cbn [str_all Str.rstrip].
  intros H. apply andb_true_iff in H as [Hc Hs].
  destruct (Str.isspace c && Str.is_empty (Str.rstrip s)); [reflexivity|].
  cbn [str_all]. rewrite Hc. exact (IH Hs).
Qed.

Lemma strip_all p s : str_all p s = true -> str_all p (Str.strip s) = true.
Proof. intros H. apply rstrip_all, lstrip_all, H. Qed.

(** X16. The cells of a table.  Every row of a table comes from a line
    of its block; it has one cell fewer than the line, stripped, has bars
    (so a line that is one bar gives a row without cells), and every cell
    is stripped and holds no bar. *)
Theorem table_cells_are_clean (rest : list string) (row : list string) :
  row ∈ (table_loop rest).1 ->
  (exists raw,
      raw ∈ bar_run rest /\
      length row = Str.occurrences (Str.strip raw) "|" - 1) /\
  Forall (fun cell =>
            Str.strip cell = cell /\
            str_all (fun c => negb (Ascii.eqb c "|")) cell = true) row.
Proof.
  rewrite table_loop_run. cbn [fst]. intros Hrow.
  apply list_elem_of_fmap in Hrow as (raw & -> & Hraw).
  apply list_elem_of_In, filter_In in Hraw as [Hraw _].
  apply list_elem_of_In in Hraw. split.
  - exists raw. split; [exact Hraw|].
    rewrite length_map, inner_length, split_length. lia.
  - apply Forall_map. eapply Forall_impl.
    + apply Forall_inner, (split_fields_no_sep "|").
    + intros field Hf. cbv beta in *. split; [apply strip_idem|].
      apply strip_all, Hf.
Qed.

Lemma table_cells_are_clean_witness :
  Forall (fun cell =>
            Str.strip cell = cell /\
            str_all (fun c => negb (Ascii.eqb c "|")) cell = true)
    ["Phase"; "Duration"].
Proof.
  apply (table_cells_are_clean ["| Phase | Duration |"; "|---|---|"]
           ["Phase"; "Duration"]).
  repeat constructor.
Defined.

(** ** The number of a numbered line *)




(** ** Where the parser returns, and where it raises *)





(** The mark-up that is always accepted. *)
Lemma bold_markup_from_skip k inside s :
  bold_markup_from k inside s = bold_markup_from 0 inside (Str.drop k s).
Proof.
  revert k. induction s as [|c s IH]; intros k.
  - rewrite str_drop_nil. destruct k; reflexivity.
  - destruct k as [|k]; [reflexivity|]. cbn [bold_markup_from Str.drop].
    apply IH.
Qed.

















